(** * BACI processing utility: the merge-and-sample pipeline of
      [data-processor/src/processor.py], embedded and verified.

    The embedding follows [DataProcessor] method by method.  A pandas
    [DataFrame] is a list of row records whose position in the list is the
    row's label in the frame's [RangeIndex]; the pandas, numpy and
    [concurrent.futures] operations the methods call are given as small
    executable functions in the modules [Pandas], [Numpy] and [Futures].

    Numbers.  Columns [t], [i], [j] are read with dtype [int64] and are never
    used arithmetically, so they are integers of [Z].  Columns [q], [v] have
    dtype [float64]; no arithmetic below inspects them except the grand total,
    and they are carried as rationals, the missing value [NaN] as [None].
    The two Python float expressions [round(frac * len)] and
    [int((i + 1) / len * 100)] are evaluated over the rationals: the model
    takes the exact product and the exact quotient where Python rounds each
    operation to the nearest binary64 value. *)

From Stdlib Require Import String Ascii.
From Stdlib Require Import List Bool Arith ZArith QArith Lia Sorted Permutation.
Import ListNotations.

Local Open Scope string_scope.
Local Open Scope list_scope.
Local Open Scope nat_scope.

Set Implicit Arguments.

(** ** Exceptions and results *)

(** The exception classes that occur, each with its message. *)
Inductive Exception : Type :=
| FileNotFoundError (msg : string)
| ValueError (msg : string)
| KeyError (msg : string)
| OtherError (msg : string).

(** A computation that either raises or returns. *)
Definition Result (A : Type) : Type := (Exception + A)%type.

Definition raise {A : Type} (e : Exception) : Result A := inl e.
Definition ret {A : Type} (a : A) : Result A := inr a.

Definition bind {A B : Type} (c : Result A) (f : A -> Result B) : Result B :=
  match c with
  | inl e => inl e
  | inr a => f a
  end.

Notation "x <- c ;; k" := (bind c (fun x => k))
  (at level 61, c at next level, right associativity).
Notation "' p <- c ;; k" := (bind c (fun p => k))
  (at level 61, p pattern, c at next level, right associativity).

Definition succeeded {A : Type} (r : Result A) : bool :=
  match r with inr _ => true | inl _ => false end.

(** ** Data model *)

(** One row of a main file after [pd.read_csv(file, dtype=dtypes, ...)].
    [k] has dtype [object]: a string, or missing. *)
Record RawRow : Type := mkRaw {
  raw_t : Z;
  raw_i : Z;
  raw_j : Z;
  raw_k : option string;
  raw_q : option Q;
  raw_v : option Q
}.

(** One row of the country table, [country_code] already cast by
    [astype(int)]. *)
Record CountryRow : Type := mkCountry {
  country_code : Z;
  country_name : option string;
  country_iso2 : option string;
  country_iso3 : option string
}.

(** One row of the product table, [code] already cast by [astype(str)]. *)
Record ProductRow : Type := mkProduct {
  code : string;
  description : option string
}.

(** One row of the frame [process_chunk] returns.  The three left merges
    each append the columns of the matched reference row, all of them missing
    when no key matched; the row keeps the matched reference row itself and
    the accessors below give the frame's columns. *)
Record EnrichedRow : Type := mkEnriched {
  t : Z;
  i : Z;
  j : Z;
  k : string;
  q : option Q;
  v : option Q;
  exporter : option CountryRow;
  importer : option CountryRow;
  product : option ProductRow
}.

Definition DataFrame : Type := list EnrichedRow.

Definition column {R A : Type} (f : R -> option A) (m : option R) : option A :=
  match m with
  | Some r => f r
  | None => None
  end.

(** Column [country_code], from the first merge. *)
Definition col_country_code (r : EnrichedRow) : option Z :=
  column (fun c => Some (country_code c)) (exporter r).
Definition exporter_name (r : EnrichedRow) : option string :=
  column country_name (exporter r).
Definition exporter_iso2 (r : EnrichedRow) : option string :=
  column country_iso2 (exporter r).
Definition exporter_iso3 (r : EnrichedRow) : option string :=
  column country_iso3 (exporter r).
(** Column [country_code_importer], from the second merge with
    [suffixes=('', '_importer')]. *)
Definition col_country_code_importer (r : EnrichedRow) : option Z :=
  column (fun c => Some (country_code c)) (importer r).
Definition importer_name (r : EnrichedRow) : option string :=
  column country_name (importer r).
Definition importer_iso2 (r : EnrichedRow) : option string :=
  column country_iso2 (importer r).
Definition importer_iso3 (r : EnrichedRow) : option string :=
  column country_iso3 (importer r).
Definition col_code (r : EnrichedRow) : option string :=
  column (fun p => Some (code p)) (product r).
Definition col_description (r : EnrichedRow) : option string :=
  column description (product r).

(** ** numpy's legacy global random generator *)

Module Numpy.

(** The state of [np.random]'s global generator.  The Mersenne twister is
    not modelled: the state is the sequence [tape] of raw draws still to
    come and the number [cursor] of draws already consumed.  Every
    behaviour of the real generator is the behaviour of some tape. *)
Record RandomState : Type := mkRandomState {
  tape : nat -> nat;
  cursor : nat
}.

(** [random_interval(max)]: a draw in the closed interval [0 .. max]. *)
Definition random_interval (st : RandomState) (max : nat)
  : nat * RandomState :=
  (tape st (cursor st) mod (S max),
   {| tape := tape st; cursor := S (cursor st) |}).

(** [x[p] = y]. *)
Fixpoint set_item (x : list nat) (p : nat) (y : nat) : list nat :=
  match x, p with
  | [], _ => []
  | _ :: tl, 0 => y :: tl
  | h :: tl, S p' => h :: set_item tl p' y
  end.

(** [x[a], x[b] = x[b], x[a]]. *)
Definition swap (x : list nat) (a b : nat) : list nat :=
  set_item (set_item x a (nth b x 0)) b (nth a x 0).

(** The loop of [shuffle]:
    [for i in reversed(range(1, n)): j = random_interval(i); swap]. *)
Fixpoint shuffle_from (i : nat) (st : RandomState) (x : list nat)
  : list nat * RandomState :=
  match i with
  | 0 => (x, st)
  | S i' =>
      let '(j, st') := random_interval st i in
      shuffle_from i' st' (swap x i j)
  end.

(** [permutation(n)]: [arange(n)] shuffled. *)
Definition permutation (st : RandomState) (n : nat)
  : list nat * RandomState :=
  shuffle_from (n - 1) st (seq 0 n).

(** [choice(pop_size, size=size, replace=False, p=None)]. *)
Definition choice (st : RandomState) (pop_size : nat) (size : Z)
  : Result (list nat * RandomState) :=
  if (Z.of_nat pop_size <? size)%Z then
    raise (ValueError
      "Cannot take a larger sample than population when 'replace=False'")
  else if (size <? 0)%Z then
    raise (ValueError "negative dimensions are not allowed")
  else
    let '(idx, st') := permutation st pop_size in
    ret (firstn (Z.to_nat size) idx, st').

End Numpy.

Import Numpy(RandomState).

(** ** The pandas operations used by the processor *)

Module Pandas.

(** [pd.merge(left, right, left_on=.., right_on=.., how='left')]: every
    left row, in order, once per right row with an equal key (in the order
    of the right frame), and once with the right columns missing when no
    right row has its key. *)
Definition merge_left {L R K : Type} (eqb : K -> K -> bool)
    (left_on : L -> K) (right_on : R -> K)
    (left : list L) (right : list R) : list (L * option R) :=
  flat_map
    (fun l =>
       match filter (fun r => eqb (left_on l) (right_on r)) right with
       | [] => [(l, None)]
       | ms => map (fun r => (l, Some r)) ms
       end)
    left.

(** [Series.astype(str)] on one cell of an [object] column: a string is
    kept, the missing value becomes the text [nan]. *)
Definition astype_str (c : option string) : string :=
  match c with
  | Some s => s
  | None => "nan"
  end.

(** [fillna] on one cell. *)
Definition fillna_cell {A : Type} (c : option A) (value : A) : option A :=
  match c with
  | Some x => Some x
  | None => Some value
  end.

(** [Series.nunique()]: the number of distinct values of a column without
    missing cells. *)
Definition nunique {A : Type} (eq_dec : forall x y : A, {x = y} + {x <> y})
    (col : list A) : nat :=
  length (nodup eq_dec col).

(** [take(positions)].  pandas raises on a position outside the frame;
    the callers below pass positions of the frame only, and the model
    skips any other. *)
Definition take {A : Type} (df : list A) (positions : list nat) : list A :=
  flat_map (fun p => match nth_error df p with
                     | Some r => [r]
                     | None => []
                     end) positions.

(** [pd.concat(frames, ignore_index=True)]. *)
Definition concat {A : Type} (frames : list (list A)) : Result (list A) :=
  match frames with
  | [] => raise (ValueError "No objects to concatenate")
  | _ => ret (List.concat frames)
  end.

(** Python's [round(x)] on a number: to the nearest integer, a tie to the
    even neighbour. *)
Definition round (x : Q) : Z :=
  let n := Qnum x in
  let d := Zpos (Qden x) in
  let lo := (n / d)%Z in
  let twice := (2 * (n mod d))%Z in
  if (twice <? d)%Z then lo
  else if (d <? twice)%Z then (lo + 1)%Z
  else if Z.even lo then lo else (lo + 1)%Z.

Definition Qltb (a b : Q) : bool := negb (Qle_bool b a).

(** [x.sample(frac=frac)] on a frame given by the labels of its rows:
    [size = round(frac * len(x))], then
    [x.take(random_state.choice(len(x), size=size, replace=False))] with
    the global generator. *)
Definition sample (frac : Q) (st : RandomState) (x : list nat)
  : Result (list nat * RandomState) :=
  if Qltb 1 frac then
    raise (ValueError
      "Replace has to be set to `True` when upsampling the population `frac` > 1.")
  else if Qltb frac 0 then
    raise (ValueError
      "A negative number of rows requested. Please provide `frac` >= 0.")
  else
    let size := round (frac * inject_Z (Z.of_nat (length x))) in
    '(idx, st') <- Numpy.choice st (length x) size ;;
    ret (take x idx, st').

(** The key of a group of [groupby(['t', 'i', 'j'])]. *)
Definition Key : Type := (Z * Z * Z)%type.

Definition key_compare (a b : Key) : comparison :=
  match (fst (fst a) ?= fst (fst b))%Z with
  | Eq => match (snd (fst a) ?= snd (fst b))%Z with
          | Eq => (snd a ?= snd b)%Z
          | c => c
          end
  | c => c
  end.

Definition key_eqb (a b : Key) : bool :=
  match key_compare a b with Eq => true | _ => false end.

Fixpoint insert_key (key : Key) (keys : list Key) : list Key :=
  match keys with
  | [] => [key]
  | h :: tl =>
      match key_compare key h with
      | Lt => key :: keys
      | Eq => keys
      | Gt => h :: insert_key key tl
      end
  end.

Section GroupBy.
Variable Row : Type.
Variable key_of : Row -> Key.

(** The distinct keys of the frame, ascending ([sort=True]). *)
Definition sorted_keys (df : list Row) : list Key :=
  fold_right insert_key [] (map key_of df).

(** The labels of the rows of one group, in frame order. *)
Definition group_labels (df : list Row) (key : Key) : list nat :=
  filter (fun p => match nth_error df p with
                   | Some r => key_eqb (key_of r) key
                   | None => false
                   end)
         (seq 0 (length df)).

Definition groupby (df : list Row) : list (list nat) :=
  map (group_labels df) (sorted_keys df).

(** [f] applied to the groups in key order, the generator threaded. *)
Fixpoint apply_groupwise
    (f : RandomState -> list nat -> Result (list nat * RandomState))
    (st : RandomState) (groups : list (list nat))
  : Result (list (list nat) * RandomState) :=
  match groups with
  | [] => ret ([], st)
  | x :: rest =>
      '(res, st1) <- f st x ;;
      '(values, st2) <- apply_groupwise f st1 rest ;;
      ret (res :: values, st2)
  end.

Definition labels_eqb (a b : list nat) : bool :=
  if list_eq_dec Nat.eq_dec a b then true else false.

Fixpoint indexed_same (groups values : list (list nat)) : bool :=
  match groups, values with
  | [], [] => true
  | x :: groups', res :: values' =>
      labels_eqb x res && indexed_same groups' values'
  | _, _ => false
  end.

(** [df.groupby(['t','i','j'], group_keys=False).apply(f)], as the
    labels of the rows of the result in the result's order: the
    results of the groups concatenated in key order, except that when
    every result has the index of its group the frame's own order is
    restored ([reindex]). *)
Definition groupby_apply
    (f : RandomState -> list nat -> Result (list nat * RandomState))
    (st : RandomState) (df : list Row)
  : Result (list nat * RandomState) :=
  let groups := groupby df in
  '(values, st') <- apply_groupwise f st groups ;;
  ret (if indexed_same groups values
       then seq 0 (length df)
       else List.concat values,
       st').
End GroupBy.

End Pandas.

(** ** [concurrent.futures] *)

Module Futures.

(** The pool as the coordinator sees it: the tasks that have finished, in
    the order they finished, and the order in which the running tasks will
    finish.  [pending] is arbitrary: an entry that names no running task is
    ignored, and a task it does not name finishes when it is waited for. *)
Record Pool : Type := mkPool {
  finished : list nat;
  pending : list nat
}.

Definition is_finished (task : nat) (done : list nat) : bool :=
  existsb (Nat.eqb task) done.

(** Let workers finish, in the order of [pending], until [task] has. *)
Fixpoint wait_for (submitted task : nat) (done pending : list nat)
  : list nat * Pool :=
  match pending with
  | [] => ([task], {| finished := done ++ [task]; pending := [] |})
  | w :: rest =>
      if (w <? submitted) && negb (is_finished w done) then
        if w =? task then
          ([w], {| finished := done ++ [w]; pending := rest |})
        else
          let '(ws, p) := wait_for submitted task (done ++ [w]) rest in
          (w :: ws, p)
      else wait_for submitted task done rest
  end.

(** [future.result()] for the future of [task]: blocks until the task has
    finished.  Returns the tasks that finished during the wait. *)
Definition result (submitted task : nat) (p : Pool) : list nat * Pool :=
  if is_finished task (finished p) then ([], p)
  else wait_for submitted task (finished p) (pending p).

End Futures.

(** ** [DataProcessor] *)

(** The fields [__init__] stores; [n_workers] after its default is applied. *)
Record DataProcessor : Type := mkProcessor {
  input_dir : string;
  output_file : string;
  use_sample : bool;
  sample_frac : Q;
  n_workers : nat;
  file_format : string;
  chunk_size : nat
}.

(** [self.auxiliary_dfs] once [analyze_files] has filled it. *)
Record AuxiliaryDfs : Type := mkAux {
  country_codes : list CountryRow;
  product_codes : list ProductRow
}.

(** *** The input directory *)

(** A row of the country file as [pd.read_csv] returns it. *)
Record CountryCsvRow : Type := mkCountryCsv {
  csv_country_code : option Z;
  csv_country_name : option string;
  csv_country_iso2 : option string;
  csv_country_iso3 : option string
}.

(** A row of the product file as [pd.read_csv] returns it. *)
Record ProductCsvRow : Type := mkProductCsv {
  csv_code : option string;
  csv_description : option string
}.

(** What is in a CSV file: a table with the columns of a main file, of the
    country file or of the product file, or something [pd.read_csv] raises
    on. *)
Inductive CsvContent : Type :=
| Unreadable (e : Exception)
| TradeCsv (rows : list RawRow)
| CountryCsv (rows : list CountryCsvRow)
| ProductCsv (rows : list ProductCsvRow).

Record CsvFile : Type := mkCsv {
  path : string;
  content : CsvContent
}.

(** [needle in hay]. *)
Fixpoint contains (needle hay : string) : bool :=
  String.prefix needle hay ||
  match hay with
  | EmptyString => false
  | String _ rest => contains needle rest
  end.

(** [next((f for f in csv_files if name in f), None)]. *)
Definition first_with (name : string) (csv_files : list CsvFile)
  : option CsvFile :=
  find (fun f => contains name (path f)) csv_files.

(** [astype(int)] on the column [country_code]. *)
Fixpoint astype_int_country_code (rows : list CountryCsvRow)
  : Result (list CountryRow) :=
  match rows with
  | [] => ret []
  | r :: rest =>
      match csv_country_code r with
      | None =>
          raise (ValueError
            "Cannot convert non-finite values (NA or inf) to integer")
      | Some c =>
          rest' <- astype_int_country_code rest ;;
          ret ({| country_code := c;
                  country_name := csv_country_name r;
                  country_iso2 := csv_country_iso2 r;
                  country_iso3 := csv_country_iso3 r |} :: rest')
      end
  end.

(** [astype(str)] on the column [code]. *)
Definition astype_str_code (rows : list ProductCsvRow) : list ProductRow :=
  map (fun r => {| code := Pandas.astype_str (csv_code r);
                   description := csv_description r |}) rows.

(** What [analyze_files] leaves in [self]. *)
Record Analysis : Type := mkAnalysis {
  main_files : list CsvFile;
  auxiliary_dfs : AuxiliaryDfs
}.

(** [analyze_files], on the list [glob] returns. *)
Definition analyze_files (csv_files : list CsvFile) : Result Analysis :=
  let main := filter (fun f => contains "BACI_HS" (path f)) csv_files in
  match first_with "country_codes" csv_files,
        first_with "product_codes" csv_files with
  | Some country_file, Some product_file =>
      countries <-
        match content country_file with
        | Unreadable e => raise e
        | CountryCsv rows => astype_int_country_code rows
        | _ => raise (KeyError "country_code")
        end ;;
      products <-
        match content product_file with
        | Unreadable e => raise e
        | ProductCsv rows => ret (astype_str_code rows)
        | _ => raise (KeyError "code")
        end ;;
      ret {| main_files := main;
             auxiliary_dfs := {| country_codes := countries;
                                 product_codes := products |} |}
  | _, _ =>
      raise (FileNotFoundError
        "Could not find country_codes or product_codes file.")
  end.

(** *** Per-chunk work *)

(** [chunk.fillna({col: 0 for col in ['q', 'v']})]. *)
Definition fillna_qv (chunk : list RawRow) : list RawRow :=
  map (fun r =>
         {| raw_t := raw_t r; raw_i := raw_i r; raw_j := raw_j r;
            raw_k := raw_k r;
            raw_q := Pandas.fillna_cell (raw_q r) 0%Q;
            raw_v := Pandas.fillna_cell (raw_v r) 0%Q |})
      chunk.

(** [process_chunk]. *)
Definition process_chunk (aux : AuxiliaryDfs) (chunk : list RawRow)
  : DataFrame :=
  (* Merge with country codes for exporter *)
  let chunk1 :=
    Pandas.merge_left Z.eqb raw_i country_code chunk (country_codes aux) in
  (* Merge with country codes for importer *)
  let chunk2 :=
    Pandas.merge_left Z.eqb (fun l => raw_j (fst l)) country_code
      chunk1 (country_codes aux) in
  (* Convert 'k' to string for merging with product codes *)
  let chunk3 :=
    map (fun l => (l, Pandas.astype_str (raw_k (fst (fst l))))) chunk2 in
  (* Merge with product codes *)
  let chunk4 :=
    Pandas.merge_left String.eqb snd code chunk3 (product_codes aux) in
  map (fun '(((raw, exp), imp, kstr), prod) =>
         {| t := raw_t raw; i := raw_i raw; j := raw_j raw; k := kstr;
            q := raw_q raw; v := raw_v raw;
            exporter := exp; importer := imp; product := prod |})
      chunk4.

Definition key_of (r : EnrichedRow) : Pandas.Key := (t r, i r, j r).

(** The function [stratified_sample] applies to each group:
    [lambda x: x.sample(frac=self.sample_frac) if len(x) > 0 else x]. *)
Definition sample_group (self : DataProcessor) (st : RandomState)
    (x : list nat) : Result (list nat * RandomState) :=
  if 0 <? length x then Pandas.sample (sample_frac self) st x
  else ret (x, st).

(** The labels of the rows [stratified_sample] returns when sampling is
    on. *)
Definition stratified_labels (self : DataProcessor) (st : RandomState)
    (df : DataFrame) : Result (list nat * RandomState) :=
  Pandas.groupby_apply key_of (sample_group self) st df.

(** [stratified_sample]; the global generator goes in and comes out. *)
Definition stratified_sample (self : DataProcessor) (st : RandomState)
    (df : DataFrame) : Result (DataFrame * RandomState) :=
  if use_sample self then
    '(labels, st') <- stratified_labels self st df ;;
    ret (Pandas.take df labels, st')
  else ret (df, st).

(** *** Per-file work *)

Fixpoint chunks_of {A : Type} (fuel chunksize : nat) (rows : list A)
  : list (list A) :=
  match fuel, rows with
  | S fuel', _ :: _ =>
      firstn chunksize rows :: chunks_of fuel' chunksize (skipn chunksize rows)
  | _, _ => []
  end.

(** The chunks the reader of [pd.read_csv(.., chunksize=chunksize)] yields
    for a table: [chunksize] rows each, the last one possibly shorter, and a
    single empty chunk for a table without rows. *)
Definition read_chunks {A : Type} (chunksize : nat) (rows : list A)
  : list (list A) :=
  match rows with
  | [] => [[]]
  | _ => chunks_of (length rows) chunksize rows
  end.

(** [pd.read_csv(file, dtype=dtypes, na_values=.., chunksize=..)] and the
    iteration over it.  A file that is not a table of trade rows makes the
    task raise: on reading, or in the first merge for want of column [i]. *)
Definition read_main_csv (self : DataProcessor) (file : CsvFile)
  : Result (list (list RawRow)) :=
  if chunk_size self <? 1 then
    raise (ValueError "'chunksize' must be an integer >=1")
  else
    match content file with
    | Unreadable e => raise e
    | TradeCsv rows => ret (read_chunks (chunk_size self) rows)
    | _ => raise (KeyError "i")
    end.

(** The body of [for chunk in chunks]. *)
Definition process_one_chunk (self : DataProcessor) (aux : AuxiliaryDfs)
    (st : RandomState) (chunk : list RawRow)
  : Result (DataFrame * RandomState) :=
  let chunk := fillna_qv chunk in
  let processed_chunk := process_chunk aux chunk in
  stratified_sample self st processed_chunk.

Fixpoint process_chunks (self : DataProcessor) (aux : AuxiliaryDfs)
    (st : RandomState) (chunks : list (list RawRow))
    (processed_chunks : list DataFrame) : Result (list DataFrame) :=
  match chunks with
  | [] => ret processed_chunks
  | chunk :: rest =>
      '(sampled_chunk, st') <- process_one_chunk self aux st chunk ;;
      process_chunks self aux st' rest (processed_chunks ++ [sampled_chunk])
  end.

(** [process_file], run in a worker process whose copy of the global
    generator is in state [st]. *)
Definition process_file (self : DataProcessor) (aux : AuxiliaryDfs)
    (st : RandomState) (file : CsvFile) : Result DataFrame :=
  chunks <- read_main_csv self file ;;
  processed_chunks <- process_chunks self aux st chunks [] ;;
  Pandas.concat processed_chunks.

(** *** Summary and output *)

(** The frame [summary_stats] of [generate_summary]: the metrics
    [Total Trade Value], [Unique Countries], [Unique Products].  The three
    ranking tables placed beside it are not modelled. *)
Record Summary : Type := mkSummary {
  total_trade : Q;
  unique_countries : nat;
  unique_products : nat
}.

(** [df['v'].sum()]: missing cells are skipped. *)
Definition sum_v (df : DataFrame) : Q :=
  fold_left (fun acc r => match v r with
                          | Some x => (acc + x)%Q
                          | None => acc
                          end) df 0%Q.

(** [generate_summary]. *)
Definition generate_summary (df : DataFrame) : Summary :=
  {| total_trade := sum_v df;
     unique_countries :=
       Pandas.nunique Z.eq_dec (map i df) + Pandas.nunique Z.eq_dec (map j df);
     unique_products := Pandas.nunique string_dec (map k df) |}.

Inductive Writer : Type := Parquet | Feather | Csv | Hdf5.

(** [save_data]: the writer that runs. *)
Definition save_data (df : DataFrame) (file_format : string)
  : Result Writer :=
  if String.eqb file_format "parquet" then ret Parquet
  else if String.eqb file_format "feather" then ret Feather
  else if String.eqb file_format "csv" then ret Csv
  else if String.eqb file_format "hdf5" then ret Hdf5
  else raise (ValueError ("Unsupported file format: " ++ file_format)%string).

(** The dictionary dumped as [_metadata.json]. *)
Record Metadata : Type := mkMetadata {
  input_directory : string;
  meta_output_file : string;
  meta_file_format : string;
  meta_use_sample : bool;
  sample_fraction : option Q;
  number_of_workers : nat;
  meta_chunk_size : nat;
  total_rows_processed : nat;
  total_files_processed : nat
}.

(** What a run that returns has written. *)
Record Output : Type := mkOutput {
  final_data : DataFrame;
  written_by : Writer;
  summary : Summary;
  metadata : Metadata
}.

(** *** The coordinator *)

(** The lines [process_data] sends to [logger.error]. *)
Inductive ErrorLine : Type :=
| ErrorInAnalyzeFiles (e : Exception)
| ErrorProcessingFile (i : nat) (e : Exception)
| ErrorInProcessData (e : Exception).

(** The texts [process_data] passes to [log_callback]: [ProcessedFile a b]
    is the text [Processed file a of b]. *)
Inductive LogText : Type :=
| ProcessedFile (number total : nat)
| ProcessingComplete
| SummarySaved
| MetadataSaved
| ErrorText (e : Exception).

(** What the coordinating process does that can be observed, and the
    moments a worker finishes a task.  The lines sent to [logger.info] are
    left out, and so is what a worker process logs on its own. *)
Inductive Event : Type :=
| WorkerDone (task : nat)
| LoggerError (line : ErrorLine)
| ProgressCallback (progress : nat)
| LogCallback (text : LogText).

(** [int((i + 1) / len(self.main_files) * 100)]. *)
Definition progress_of (i total : nat) : nat := ((i + 1) * 100) / total.

Definition enumerate {A : Type} (l : list A) : list (nat * A) :=
  combine (seq 0 (length l)) l.

(** The variables of the loop over the futures. *)
Record Collector : Type := mkCollector {
  processed_data : list DataFrame;
  events : list Event;
  pool : Futures.Pool
}.

(** The body of [for i, future in enumerate(futures)]. *)
Definition collect_step (progress_callback log_callback : bool)
    (total : nat) (c : Collector) (item : nat * Result DataFrame)
  : Collector :=
  let '(i, future) := item in
  let '(done, pool') := Futures.result total i (pool c) in
  let waited := events c ++ map WorkerDone done in
  match future with
  | inr result =>
      {| processed_data := processed_data c ++ [result];
         events :=
           waited
           ++ (if progress_callback
               then [ProgressCallback (progress_of i total)] else [])
           ++ (if log_callback
               then [LogCallback (ProcessedFile (i + 1) total)] else []);
         pool := pool' |}
  | inl e =>
      {| processed_data := processed_data c;
         events := waited ++ [LoggerError (ErrorProcessingFile i e)];
         pool := pool' |}
  end.

Definition collect (progress_callback log_callback : bool) (total : nat)
    (futures : list (Result DataFrame)) (schedule : list nat) : Collector :=
  fold_left (collect_step progress_callback log_callback total)
    (enumerate futures)
    {| processed_data := []; events := [];
       pool := {| Futures.finished := []; Futures.pending := schedule |} |}.

(** [executor.submit(self.process_file, file) for file in self.main_files]:
    the result each future will hold.  [worker_rng n] is the state of the
    generator in the worker process that picks up task [n]. *)
Definition submit_all (self : DataProcessor) (an : Analysis)
    (worker_rng : nat -> RandomState) : list (Result DataFrame) :=
  map (fun '(n, file) =>
         process_file self (auxiliary_dfs an) (worker_rng n) file)
      (enumerate (main_files an)).

(** The part of [process_data] after the pool is closed. *)
Definition finish (self : DataProcessor) (an : Analysis)
    (processed : list DataFrame) : Result Output :=
  match processed with
  | [] => raise (ValueError "No data was successfully processed")
  | _ =>
      final <- Pandas.concat processed ;;
      let summary := generate_summary final in
      writer <- save_data final (file_format self) ;;
      ret {| final_data := final;
             written_by := writer;
             summary := summary;
             metadata :=
               {| input_directory := input_dir self;
                  meta_output_file := output_file self;
                  meta_file_format := file_format self;
                  meta_use_sample := use_sample self;
                  sample_fraction :=
                    if use_sample self then Some (sample_frac self) else None;
                  number_of_workers := n_workers self;
                  meta_chunk_size := chunk_size self;
                  total_rows_processed := length final;
                  total_files_processed := length (main_files an) |} |}
  end.

(** A run of [process_data]: what was observed, and the exception it raised
    or what it wrote. *)
Record Run : Type := mkRun {
  trace : list Event;
  outcome : Result Output
}.

(** [process_data].  [progress_callback] and [log_callback] tell whether the
    caller passed the callback; [csv_files] is what [glob] finds in the input
    directory; [schedule] is the order in which the workers finish. *)
Definition process_data (self : DataProcessor)
    (progress_callback log_callback : bool) (csv_files : list CsvFile)
    (worker_rng : nat -> RandomState) (schedule : list nat) : Run :=
  let '(seen, res) :=
    match analyze_files csv_files with
    | inl e => ([LoggerError (ErrorInAnalyzeFiles e)], inl e)
    | inr an =>
        let futures := submit_all self an worker_rng in
        let c := collect progress_callback log_callback
                   (length (main_files an)) futures schedule in
        (events c, finish self an (processed_data c))
    end in
  match res with
  | inr out =>
      {| trace :=
           seen ++ (if log_callback
                    then [LogCallback ProcessingComplete;
                          LogCallback SummarySaved;
                          LogCallback MetadataSaved]
                    else []);
         outcome := inr out |}
  | inl e =>
      {| trace :=
           seen ++ [LoggerError (ErrorInProcessData e)]
           ++ (if log_callback then [LogCallback (ErrorText e)] else []);
         outcome := inl e |}
  end.

(** ** Vocabulary of the statements *)

(** The results of the futures that returned, in the order of the list. *)
Fixpoint returned {A : Type} (futures : list (Result A)) : list A :=
  match futures with
  | [] => []
  | inr a :: rest => a :: returned rest
  | inl _ :: rest => returned rest
  end.

(** The enrichment columns of each of the three merges are all missing. *)
Definition exporter_columns_null (r : EnrichedRow) : Prop :=
  col_country_code r = None /\ exporter_name r = None /\
  exporter_iso2 r = None /\ exporter_iso3 r = None.

Definition importer_columns_null (r : EnrichedRow) : Prop :=
  col_country_code_importer r = None /\ importer_name r = None /\
  importer_iso2 r = None /\ importer_iso3 r = None.

Definition product_columns_null (r : EnrichedRow) : Prop :=
  col_code r = None /\ col_description r = None.

(** The reference row a key selects when keys are unique. *)
Definition lookup_country (aux : AuxiliaryDfs) (c : Z) : option CountryRow :=
  find (fun r => Z.eqb c (country_code r)) (country_codes aux).

Definition lookup_product (aux : AuxiliaryDfs) (c : string)
  : option ProductRow :=
  find (fun r => String.eqb c (code r)) (product_codes aux).

(** A trade row with the reference rows its three keys select. *)
Definition enrich (aux : AuxiliaryDfs) (raw : RawRow) : EnrichedRow :=
  {| t := raw_t raw; i := raw_i raw; j := raw_j raw;
     k := Pandas.astype_str (raw_k raw);
     q := raw_q raw; v := raw_v raw;
     exporter := lookup_country aux (raw_i raw);
     importer := lookup_country aux (raw_j raw);
     product := lookup_product aux (Pandas.astype_str (raw_k raw)) |}.


(** The count the specification asks for: the distinct identifiers in the
    union of the columns [i] and [j]. *)
Definition distinct_in_union (df : DataFrame) : nat :=
  length (nodup Z.eq_dec (map i df ++ map j df)).

(** The callbacks the loop over the futures makes for one future. *)
Definition callbacks_for (progress_callback log_callback : bool)
    (total : nat) (item : nat * Result DataFrame) : list Event :=
  match snd item with
  | inr _ =>
      (if progress_callback
       then [ProgressCallback (progress_of (fst item) total)] else [])
      ++ (if log_callback
          then [LogCallback (ProcessedFile (fst item + 1) total)] else [])
  | inl _ => []
  end.

Definition is_file_callback (e : Event) : bool :=
  match e with
  | ProgressCallback _ => true
  | LogCallback (ProcessedFile _ _) => true
  | _ => false
  end.

(** The per-file callbacks of a trace, in the order they were made. *)
Definition file_callbacks (tr : list Event) : list Event :=
  filter is_file_callback tr.

(** The percentage last passed to [progress_callback], if any. *)
Fixpoint last_progress (tr : list Event) : option nat :=
  match tr with
  | [] => None
  | e :: rest =>
      match last_progress rest, e with
      | Some p, _ => Some p
      | None, ProgressCallback p => Some p
      | None, _ => None
      end
  end.

(** The tasks whose completion a trace records, in order. *)
Fixpoint completions (tr : list Event) : list nat :=
  match tr with
  | [] => []
  | WorkerDone n :: rest => n :: completions rest
  | _ :: rest => completions rest
  end.

Definition supported_format (file_format : string) : bool :=
  String.eqb file_format "parquet" || String.eqb file_format "feather" ||
  String.eqb file_format "csv" || String.eqb file_format "hdf5".

Definition NoDataProcessed : Exception :=
  ValueError "No data was successfully processed".

Definition UnsupportedOutputFormat (file_format : string) : Exception :=
  ValueError ("Unsupported file format: " ++ file_format)%string.

(** The futures a run submits: none when [analyze_files] raises. *)
Definition futures_of (self : DataProcessor) (csv_files : list CsvFile)
    (worker_rng : nat -> RandomState) : list (Result DataFrame) :=
  match analyze_files csv_files with
  | inr an => submit_all self an worker_rng
  | inl _ => []
  end.

(** The number of rows [sample(frac=frac)] draws from [n] rows. *)
Definition sample_count (frac : Q) (n : nat) : nat :=
  Z.to_nat (Pandas.round (frac * inject_Z (Z.of_nat n))).

(** What [sample_group] returns for a group: no label twice, labels of the
    group only, [sample_count] of them. *)
Definition drawn_from (frac : Q) (x res : list nat) : Prop :=
  NoDup res /\ (forall p, In p res -> In p x) /\
  length res = sample_count frac (length x).

(** The order in which [groupby] lists the keys. *)
Definition key_lt (a b : Pandas.Key) : Prop := Pandas.key_compare a b = Lt.

(** A list that holds each of [0 .. n-1] once. *)
Definition arrangement (n : nat) (x : list nat) : Prop :=
  length x = n /\ NoDup x /\ Forall (fun y => y < n) x.

(** ** Sample inputs *)

Module Sample.

Definition countries_csv : CsvFile :=
  {| path := "/data/country_codes_V202401b.csv";
     content := CountryCsv
       [ mkCountryCsv (Some 4%Z) (Some "Afghanistan") (Some "AF") (Some "AFG");
         mkCountryCsv (Some 8%Z) (Some "Albania") (Some "AL") (Some "ALB") ] |}.

Definition products_csv : CsvFile :=
  {| path := "/data/product_codes_HS17_V202401b.csv";
     content := ProductCsv
       [ mkProductCsv (Some "010121") (Some "Horses: live, pure-bred");
         mkProductCsv (Some "010129") (Some "Horses: live, other") ] |}.

Definition aux : AuxiliaryDfs :=
  {| country_codes :=
       [ mkCountry 4%Z (Some "Afghanistan") (Some "AF") (Some "AFG");
         mkCountry 8%Z (Some "Albania") (Some "AL") (Some "ALB") ];
     product_codes :=
       [ mkProduct "010121" (Some "Horses: live, pure-bred");
         mkProduct "010129" (Some "Horses: live, other") ] |}.

(** Exporter 4 to importer 8, then back; the third row names an exporter
    and a product the tables do not have and has no quantity. *)
Definition trade_rows : list RawRow :=
  [ mkRaw 2020%Z 4%Z 8%Z (Some "010121") (Some (3#2)) (Some (10#1));
    mkRaw 2020%Z 8%Z 4%Z (Some "010129") (Some (1#1)) (Some (20#1));
    mkRaw 2021%Z 12%Z 8%Z (Some "999999") None (Some (30#1)) ].

Definition good_csv : CsvFile :=
  {| path := "/data/BACI_HS17_Y2020_V202401b.csv";
     content := TradeCsv trade_rows |}.

Definition corrupt_csv : CsvFile :=
  {| path := "/data/BACI_HS17_Y2019_V202401b.csv";
     content := Unreadable (OtherError "Error tokenizing data") |}.

Definition other_csv : CsvFile :=
  {| path := "/data/BACI_HS17_Y2021_V202401b.csv";
     content := TradeCsv
       [ mkRaw 2021%Z 8%Z 4%Z (Some "010121") (Some (2#1)) None ] |}.

(** Input directories, as [glob] lists them. *)
Definition bad_then_good : list CsvFile :=
  [countries_csv; products_csv; corrupt_csv; good_csv].
Definition good_then_bad : list CsvFile :=
  [countries_csv; products_csv; good_csv; corrupt_csv].
Definition two_good : list CsvFile :=
  [countries_csv; products_csv; good_csv; other_csv].
Definition only_bad : list CsvFile :=
  [countries_csv; products_csv; corrupt_csv].

(** What [analyze_files] finds in them. *)
Definition found (main : list CsvFile) : Analysis :=
  {| main_files := main; auxiliary_dfs := aux |}.

Definition processor (sampling : bool) (frac : Q) (fmt : string)
  : DataProcessor :=
  {| input_dir := "/data"; output_file := "/out/merged.dat";
     use_sample := sampling; sample_frac := frac; n_workers := 2;
     file_format := fmt; chunk_size := 1000 |}.

(** Generators whose every raw draw is [0], and [1]. *)
Definition zeros : RandomState := {| Numpy.tape := fun _ => 0;
                                     Numpy.cursor := 0 |}.
Definition ones : RandomState := {| Numpy.tape := fun _ => 1;
                                    Numpy.cursor := 0 |}.

(** Every worker process starts from the same state of the generator. *)
Definition same_rng : nat -> RandomState := fun _ => zeros.

Definition row (period exp imp : Z) (value : Q) : EnrichedRow :=
  {| t := period; i := exp; j := imp; k := "010121";
     q := Some 1%Q; v := Some value;
     exporter := None; importer := None; product := None |}.

(** Ten rows of the group (2020, 4, 8) and two of another group. *)
Definition batch : DataFrame :=
  map (fun n => row 2020 4 8 (inject_Z (Z.of_nat n))) (seq 0 10)
  ++ [row 2021 4 8 100%Q; row 2021 4 8 101%Q].

Definition pair : DataFrame := [row 2020 4 8 1%Q; row 2020 4 8 2%Q].

(** Two countries that trade with each other. *)
Definition mutual : DataFrame := [row 2020 4 8 1%Q; row 2020 8 4 2%Q].

End Sample.

(** ** The time series of [generate_summary] *)




(** ** The files [save_data] and [process_data] write *)

(** The file [save_data] writes with each writer, [base_name] being
    [os.path.splitext(self.output_file)[0]]. *)
Definition data_file (base_name : string) (w : Writer) : string :=
  match w with
  | Parquet => base_name ++ ".parquet"
  | Feather => base_name ++ ".feather"
  | Csv => base_name ++ ".csv"
  | Hdf5 => base_name ++ ".h5"
  end%string.

Definition summary_file (base_name : string) : string :=
  (base_name ++ "_summary.csv")%string.

Definition metadata_file (base_name : string) : string :=
  (base_name ++ "_metadata.json")%string.

(** ** [utils.py] *)

Module Utils.

(** [s.endswith(suffix)]. *)
Definition endswith (s suffix : string) : bool :=
  let n := String.length s in
  let m := String.length suffix in
  (m <=? n) && String.eqb (substring (n - m) m s) suffix.

Inductive Reader : Type := ReadCsv | ReadParquet.

(** [read_file]: the pandas reader it hands the path to. *)
Definition read_file (file_path : string) : Result Reader :=
  if endswith file_path ".csv" then ret ReadCsv
  else if endswith file_path ".parquet" then ret ReadParquet
  else raise (ValueError ("Unsupported file format: " ++ file_path)%string).

(** A cell of a frame, as text; [None] is a missing value. *)
Definition Cell : Type := option string.

(** A frame as [pd.read_csv(file_path, nrows=1000)] returns it: the column
    names (pandas makes them distinct), the dtype it inferred for each, by
    name, and the rows. *)
Record Frame : Type := mkFrame {
  frame_columns : list string;
  frame_dtypes : list string;
  frame_rows : list (list Cell)
}.

(** The dictionary [analyze_csv] returns: [columns], [dtypes] by column and
    [sample], for each column the cells of the first rows by row label. *)
Record Structure : Type := mkStructure {
  columns : list string;
  dtypes : list (string * string);
  sample : list (string * list (nat * Cell))
}.

(** [df.head(5).to_dict()]. *)
Definition head_to_dict (df : Frame) : list (string * list (nat * Cell)) :=
  let head := firstn 5 (frame_rows df) in
  map (fun '(n, c) =>
         (c, map (fun '(label, row) => (label, nth n row None))
                 (combine (seq 0 (length head)) head)))
      (combine (seq 0 (length (frame_columns df))) (frame_columns df)).

(** [analyze_csv], on the frame read. *)
Definition analyze_frame (df : Frame) : Structure :=
  {| columns := frame_columns df;
     dtypes := combine (frame_columns df) (frame_dtypes df);
     sample := head_to_dict df |}.







(** [d[key]] on a dictionary. *)
Definition getitem {V : Type} (d : list (string * V)) (key : string)
  : Result V :=
  match find (fun kv => String.eqb (fst kv) key) d with
  | Some kv => ret (snd kv)
  | None => raise (KeyError key)
  end.

(** [a.values() == b.values()] on two dictionaries: the two views are
    distinct objects and a view has no equality of its own, so Python
    compares them by identity. *)
Definition values_eq (a b : list (nat * Cell)) : bool := false.

(** The body of the inner loop of [find_merge_keys]. *)
Definition try_rename (main_structure auxiliary_structure : Structure)
    (main_col aux_col : string) (potential_renames : list (string * string))
  : Result (list (string * string)) :=
  dm <- getitem (dtypes main_structure) main_col ;;
  da <- getitem (dtypes auxiliary_structure) aux_col ;;
  if String.eqb dm da then
    sm <- getitem (sample main_structure) main_col ;;
    sa <- getitem (sample auxiliary_structure) aux_col ;;
    if values_eq sm sa
    then ret (potential_renames ++ [(main_col, aux_col)])
    else ret potential_renames
  else ret potential_renames.

Fixpoint for_aux_cols (main_structure auxiliary_structure : Structure)
    (main_col : string) (aux_cols : list string)
    (potential_renames : list (string * string))
  : Result (list (string * string)) :=
  match aux_cols with
  | [] => ret potential_renames
  | aux_col :: rest =>
      renames <- try_rename main_structure auxiliary_structure
                   main_col aux_col potential_renames ;;
      for_aux_cols main_structure auxiliary_structure main_col rest renames
  end.

Fixpoint for_main_cols (main_structure auxiliary_structure : Structure)
    (main_cols aux_cols : list string)
    (potential_renames : list (string * string))
  : Result (list (string * string)) :=
  match main_cols with
  | [] => ret potential_renames
  | main_col :: rest =>
      renames <- for_aux_cols main_structure auxiliary_structure
                   main_col aux_cols potential_renames ;;
      for_main_cols main_structure auxiliary_structure rest aux_cols renames
  end.

(** [find_merge_keys].  A Python set is a list without repetition; the
    order in which Python iterates it is not fixed, and the model takes the
    order of first occurrence. *)
Definition find_merge_keys (main_structure auxiliary_structure : Structure)
  : Result (list string * list (string * string)) :=
  let main_cols := nodup string_dec (columns main_structure) in
  let aux_cols := nodup string_dec (columns auxiliary_structure) in
  let common_cols :=
    filter (fun c => if in_dec string_dec c aux_cols then true else false)
           main_cols in
  potential_renames <-
    for_main_cols main_structure auxiliary_structure main_cols aux_cols [] ;;
  ret (common_cols, potential_renames).

End Utils.

(** ** Vocabulary of the further statements *)

(** The percentages passed to [progress_callback], in order. *)
Fixpoint progress_values (tr : list Event) : list nat :=
  match tr with
  | [] => []
  | ProgressCallback p :: rest => p :: progress_values rest
  | _ :: rest => progress_values rest
  end.

(** The rows a main file contributes when nothing is sampled away. *)
Definition rows_of_file (aux : AuxiliaryDfs) (file : CsvFile) : DataFrame :=
  match content file with
  | TradeCsv rows => process_chunk aux (fillna_qv rows)
  | _ => []
  end.

(** The number of rows of a reference table with a given key, and the
    number of rows a left merge makes of a left row with that key. *)
Definition matches {R K : Type} (eqb : K -> K -> bool) (key : R -> K)
    (x : K) (right : list R) : nat :=
  length (filter (fun r => eqb x (key r)) right).

Definition copies (n : nat) : nat := Nat.max 1 n.

(** The number of rows [process_chunk] makes of one trade row. *)
Definition fan_out (aux : AuxiliaryDfs) (raw : RawRow) : nat :=
  copies (matches Z.eqb country_code (raw_i raw) (country_codes aux))
  * copies (matches Z.eqb country_code (raw_j raw) (country_codes aux))
  * copies (matches String.eqb code (Pandas.astype_str (raw_k raw))
              (product_codes aux)).


(** The events the loop over the futures can make. *)
Definition loop_event (e : Event) : Prop :=
  match e with
  | LogCallback (ProcessedFile _ _) => True
  | LogCallback _ => False
  | LoggerError (ErrorProcessingFile _ _) => True
  | LoggerError _ => False
  | _ => True
  end.


(** The order of the keys, equal keys allowed. *)
Definition key_le (a b : Pandas.Key) : Prop := Pandas.key_compare a b <> Gt.

(** ** Further sample inputs *)

Module Further.

(** The reference files in a directory named after the data set. *)
Definition hs_dir_files : list CsvFile :=
  [ mkCsv "/BACI_HS17/country_codes.csv" (content Sample.countries_csv);
    mkCsv "/BACI_HS17/product_codes.csv" (content Sample.products_csv) ].

(** A country file with a row that has no code. *)
Definition codeless_csv : CsvFile :=
  mkCsv "/data/country_codes.csv"
        (CountryCsv [mkCountryCsv None (Some "Nowhere") None None]).

Definition codeless_dir : list CsvFile :=
  [codeless_csv; Sample.products_csv; Sample.good_csv].

End Further.

(** * Properties *)

Unset Implicit Arguments.

(** ** Reading in chunks *)

Lemma chunks_of_concat {A : Type} (fuel chunksize : nat) (rows : list A) :
  1 <= chunksize -> length rows <= fuel ->
  List.concat (chunks_of fuel chunksize rows) = rows /\
  Forall (fun chunk => length chunk <= chunksize)
         (chunks_of fuel chunksize rows).
Proof.
  intros Hc. revert rows.
  induction fuel as [|fuel IH]; intros rows Hlen.
  - destruct rows; [split; [reflexivity|constructor]|simpl in Hlen; lia].
  - destruct rows as [|a rows]; [split; [reflexivity|constructor]|].
    cbn [chunks_of List.concat].
    destruct (IH (skipn chunksize (a :: rows))) as [IH1 IH2].
    { rewrite length_skipn. cbn [length] in *. lia. }
    split.
    + rewrite IH1. apply firstn_skipn.
    + constructor; [|exact IH2]. rewrite length_firstn. lia.
Qed.

(** The chunks of a table are bounded by the chunk size and put together
    give the table back: the reader loses and repeats no row. *)
Lemma read_chunks_concat {A : Type} (chunksize : nat) (rows : list A) :
  1 <= chunksize ->
  List.concat (read_chunks chunksize rows) = rows /\
  Forall (fun chunk => length chunk <= chunksize)
         (read_chunks chunksize rows).
Proof.
  intros Hc. unfold read_chunks. destruct rows as [|a rows].
  - split; [reflexivity|]. repeat constructor. simpl. lia.
  - now apply chunks_of_concat.
Qed.

(** ** The join step *)

Lemma filter_none {A : Type} (f : A -> bool) (l : list A) :
  (forall a, In a l -> f a = false) -> filter f l = [].
Proof.
  induction l as [|a l IH]; intros H; [reflexivity|].
  simpl. rewrite (H a (or_introl eq_refl)). apply IH.
  intros b Hb. apply H. now right.
Qed.

Section LeftMerge.
Variables L R K : Type.
Variable eqb : K -> K -> bool.
Hypothesis eqb_spec : forall a b, eqb a b = true <-> a = b.
Variable left_on : L -> K.
Variable right_on : R -> K.

(** With unique right keys at most one right row has a given key: the one
    [find] returns. *)
Lemma filter_unique_key (x : K) (right : list R) :
  NoDup (map right_on right) ->
  filter (fun r => eqb x (right_on r)) right =
  match find (fun r => eqb x (right_on r)) right with
  | Some r => [r]
  | None => []
  end.
Proof.
  induction right as [|r right IH]; intros Hnd; [reflexivity|].
  simpl in Hnd. inversion Hnd as [|? ? Hnotin Hnd']; subst.
  simpl. destruct (eqb x (right_on r)) eqn:E.
  - f_equal. apply eqb_spec in E. subst x.
    rewrite filter_none; [reflexivity|].
    intros r' Hin.
    destruct (eqb (right_on r) (right_on r')) eqn:E'; [|reflexivity].
    apply eqb_spec in E'. exfalso. apply Hnotin. rewrite E'.
    now apply in_map.
  - now apply IH.
Qed.

(** A left merge against unique keys keeps every left row exactly once, in
    place, beside the right row its key selects. *)
Lemma merge_left_unique (left : list L) (right : list R) :
  NoDup (map right_on right) ->
  Pandas.merge_left eqb left_on right_on left right =
  map (fun l => (l, find (fun r => eqb (left_on l) (right_on r)) right)) left.
Proof.
  intros Hnd. unfold Pandas.merge_left.
  rewrite flat_map_ext with
    (g := fun l => [(l, find (fun r => eqb (left_on l) (right_on r)) right)]).
  - induction left as [|l left IH]; [reflexivity|].
    simpl. now rewrite IH.
  - intros l. rewrite (filter_unique_key _ _ Hnd).
    destruct (find _ right); reflexivity.
Qed.

(** Whatever the right keys, every row of the result carries a left row. *)
Lemma merge_left_from_left (left : list L) (right : list R) l m :
  In (l, m) (Pandas.merge_left eqb left_on right_on left right) ->
  In l left.
Proof.
  unfold Pandas.merge_left. rewrite in_flat_map.
  intros [l0 [Hin Hrow]].
  destruct (filter _ right) as [|r0 ms].
  - destruct Hrow as [Heq|[]]. now inversion Heq; subst.
  - apply in_map_iff in Hrow. destruct Hrow as [r [Heq _]].
    now inversion Heq; subst.
Qed.
End LeftMerge.

Lemma Zeqb_spec (a b : Z) : Z.eqb a b = true <-> a = b.
Proof. apply Z.eqb_eq. Qed.

Lemma Seqb_spec (a b : string) : String.eqb a b = true <-> a = b.
Proof. apply String.eqb_eq. Qed.

(** With unique reference keys [process_chunk] enriches row by row. *)
Lemma process_chunk_unique (aux : AuxiliaryDfs) (chunk : list RawRow) :
  NoDup (map country_code (country_codes aux)) ->
  NoDup (map code (product_codes aux)) ->
  process_chunk aux chunk = map (enrich aux) chunk.
Proof.
  intros Hc Hp. unfold process_chunk.
  rewrite (merge_left_unique _ _ _ _ Zeqb_spec raw_i country_code chunk _ Hc).
  rewrite (merge_left_unique _ _ _ _ Zeqb_spec _ country_code _ _ Hc).
  rewrite (merge_left_unique _ _ _ _ Seqb_spec _ code _ _ Hp).
  rewrite !map_map. apply map_ext. intros raw. reflexivity.
Qed.

Lemma find_none_no_key {R K : Type} (eqb : K -> K -> bool)
    (key : R -> K) (x : K) (rows : list R) :
  (forall a b, eqb a b = true <-> a = b) ->
  (forall r, In r rows -> key r <> x) ->
  find (fun r => eqb x (key r)) rows = None.
Proof.
  intros Hspec Hno.
  destruct (find (fun r => eqb x (key r)) rows) as [r|] eqn:E; [|reflexivity].
  apply find_some in E. destruct E as [Hin Heq].
  apply Hspec in Heq. exfalso. apply (Hno r Hin). now symmetry.
Qed.

(** C4.  With unique keys in both reference tables the join step returns
    as many rows as it is given, never raises, and keeps every row in place:
    the row at each position has the trade fields of the input row at that
    position ([k] as the string [astype(str)] makes of it, which is [k]
    itself when it is a string), and when the exporter, the importer or the
    product key is in no reference row, the columns that merge adds are all
    missing. *)
Theorem process_chunk_left_join (aux : AuxiliaryDfs) (chunk : list RawRow) :
  NoDup (map country_code (country_codes aux)) ->
  NoDup (map code (product_codes aux)) ->
  length (process_chunk aux chunk) = length chunk /\
  forall n raw, nth_error chunk n = Some raw ->
    exists r, nth_error (process_chunk aux chunk) n = Some r /\
      t r = raw_t raw /\ i r = raw_i raw /\ j r = raw_j raw /\
      k r = Pandas.astype_str (raw_k raw) /\
      (forall s, raw_k raw = Some s -> k r = s) /\
      q r = raw_q raw /\ v r = raw_v raw /\
      ((forall c, In c (country_codes aux) -> country_code c <> raw_i raw) ->
         exporter_columns_null r) /\
      ((forall c, In c (country_codes aux) -> country_code c <> raw_j raw) ->
         importer_columns_null r) /\
      ((forall p, In p (product_codes aux) ->
                  code p <> Pandas.astype_str (raw_k raw)) ->
         product_columns_null r).
Proof.
  intros Hc Hp. rewrite (process_chunk_unique aux chunk Hc Hp). split.
  - apply length_map.
  - intros n raw Hn. exists (enrich aux raw). split.
    + now apply map_nth_error.
    + repeat split; try reflexivity.
      * intros s Hs. simpl. now rewrite Hs.
      * unfold col_country_code, enrich, lookup_country; simpl.
        now rewrite (find_none_no_key Z.eqb country_code _ _ Zeqb_spec H).
      * unfold exporter_name, enrich, lookup_country; simpl.
        now rewrite (find_none_no_key Z.eqb country_code _ _ Zeqb_spec H).
      * unfold exporter_iso2, enrich, lookup_country; simpl.
        now rewrite (find_none_no_key Z.eqb country_code _ _ Zeqb_spec H).
      * unfold exporter_iso3, enrich, lookup_country; simpl.
        now rewrite (find_none_no_key Z.eqb country_code _ _ Zeqb_spec H).
      * unfold col_country_code_importer, enrich, lookup_country; simpl.
        now rewrite (find_none_no_key Z.eqb country_code _ _ Zeqb_spec H).
      * unfold importer_name, enrich, lookup_country; simpl.
        now rewrite (find_none_no_key Z.eqb country_code _ _ Zeqb_spec H).
      * unfold importer_iso2, enrich, lookup_country; simpl.
        now rewrite (find_none_no_key Z.eqb country_code _ _ Zeqb_spec H).
      * unfold importer_iso3, enrich, lookup_country; simpl.
        now rewrite (find_none_no_key Z.eqb country_code _ _ Zeqb_spec H).
      * unfold col_code, enrich, lookup_product; simpl.
        now rewrite (find_none_no_key String.eqb code _ _ Seqb_spec H).
      * unfold col_description, enrich, lookup_product; simpl.
        now rewrite (find_none_no_key String.eqb code _ _ Seqb_spec H).
Qed.

Lemma process_chunk_left_join_witness :
  NoDup (map country_code (country_codes Sample.aux)) /\
  NoDup (map code (product_codes Sample.aux)) /\
  length (process_chunk Sample.aux Sample.trade_rows) = 3.
Proof.
  assert (Hc : NoDup (map country_code (country_codes Sample.aux))).
  { simpl. repeat constructor; simpl; intuition discriminate. }
  assert (Hp : NoDup (map code (product_codes Sample.aux))).
  { simpl. repeat constructor; simpl; intuition discriminate. }
  split; [exact Hc|]. split; [exact Hp|].
  exact (proj1 (process_chunk_left_join Sample.aux Sample.trade_rows Hc Hp)).
Defined.

(** The third sample row names exporter 12 and product 999999, which the
    tables lack: it stays, third, with those columns missing and the
    importer's filled. *)
Example process_chunk_unmatched_row :
  exists r, nth_error (process_chunk Sample.aux Sample.trade_rows) 2 = Some r /\
    i r = 12%Z /\ exporter_name r = None /\ col_description r = None /\
    importer_name r = Some "Albania".
Proof. eexists. split; [reflexivity|]. repeat split. Qed.

(** Without unique keys the merge fans out: two reference rows for one
    country code give two rows for one trade row. *)
Example process_chunk_duplicate_key_fans_out :
  length (process_chunk
            {| country_codes := [ mkCountry 4%Z (Some "A") None None;
                                  mkCountry 4%Z (Some "B") None None ];
               product_codes := [] |}
            [ mkRaw 2020%Z 4%Z 8%Z (Some "010121") None None ]) = 2.
Proof. reflexivity. Qed.

(** ** Imputation before the join *)




(** ** The sampler switched off *)

(** C6.  With sampling disabled [stratified_sample] returns the frame it is
    given, and leaves the random generator alone. *)
Theorem stratified_sample_disabled (self : DataProcessor) (st : RandomState)
    (df : DataFrame) :
  use_sample self = false ->
  stratified_sample self st df = inr (df, st).
Proof. intros H. unfold stratified_sample. now rewrite H. Qed.

Lemma stratified_sample_disabled_witness :
  stratified_sample (Sample.processor false (1#2) "csv") Sample.ones
    Sample.batch = inr (Sample.batch, Sample.ones).
Proof.
  apply (stratified_sample_disabled (Sample.processor false (1#2) "csv")).
  reflexivity.
Defined.

(** ** The count of countries in the summary *)

Lemma nodup_app_length (a b : list Z) :
  length (nodup Z.eq_dec (a ++ b))
  + length (filter (fun x => if in_dec Z.eq_dec x b then true else false)
                   (nodup Z.eq_dec a))
  = length (nodup Z.eq_dec a) + length (nodup Z.eq_dec b).
Proof.
  induction a as [|x a IH]; simpl; [lia|].
  destruct (in_dec Z.eq_dec x a) as [Ha|Ha].
  - destruct (in_dec Z.eq_dec x (a ++ b)) as [Hab|Hab]; [exact IH|].
    exfalso. apply Hab. apply in_or_app. now left.
  - destruct (in_dec Z.eq_dec x (a ++ b)) as [Hab|Hab]; simpl.
    + apply in_app_or in Hab. destruct Hab as [Hin|Hin]; [contradiction|].
      destruct (in_dec Z.eq_dec x b); [simpl; lia|contradiction].
    + destruct (in_dec Z.eq_dec x b) as [Hb|Hb]; [|simpl; lia].
      exfalso. apply Hab. apply in_or_app. now right.
Qed.

(** What [generate_summary] reports as [Unique Countries] is the count over
    the union plus the number of countries that occur in both columns. *)
Lemma unique_countries_counts_common_twice (df : DataFrame) :
  unique_countries (generate_summary df) =
  distinct_in_union df
  + length (filter (fun x => if in_dec Z.eq_dec x (map j df)
                             then true else false)
                   (nodup Z.eq_dec (map i df))).
Proof.
  unfold generate_summary, distinct_in_union, Pandas.nunique. simpl.
  symmetry. apply nodup_app_length.
Qed.

(** C1 fails on the code.  Two countries that trade with each other are two
    distinct identifiers in the union of the columns [i] and [j], and
    [generate_summary] reports 4: [nunique] of [i] plus [nunique] of [j]. *)
Theorem unique_countries_counts_both_columns :
  distinct_in_union Sample.mutual = 2 /\
  unique_countries (generate_summary Sample.mutual) = 4.
Proof. split; reflexivity. Qed.

(** ** The random generator: [permutation] and [choice] *)

Lemma set_item_length (x : list nat) (p y : nat) :
  length (Numpy.set_item x p y) = length x.
Proof.
  revert p. induction x as [|h x IH]; intros [|p]; simpl; auto.
Qed.

Lemma nth_set_item (x : list nat) (p y n : nat) :
  p < length x ->
  nth n (Numpy.set_item x p y) 0 = if n =? p then y else nth n x 0.
Proof.
  revert p n. induction x as [|h x IH]; intros p n Hp; simpl in Hp; [lia|].
  destruct p as [|p], n as [|n]; simpl; auto.
  apply IH. lia.
Qed.

Lemma swap_length (x : list nat) (a b : nat) :
  length (Numpy.swap x a b) = length x.
Proof. unfold Numpy.swap. now rewrite !set_item_length. Qed.

Lemma nth_swap (x : list nat) (a b n : nat) :
  a < length x -> b < length x ->
  nth n (Numpy.swap x a b) 0 =
  if n =? b then nth a x 0 else if n =? a then nth b x 0 else nth n x 0.
Proof.
  intros Ha Hb. unfold Numpy.swap.
  rewrite nth_set_item by (now rewrite set_item_length).
  destruct (n =? b); [reflexivity|].
  now rewrite nth_set_item.
Qed.

Lemma swap_arrangement (n : nat) (x : list nat) (a b : nat) :
  a < n -> b < n -> arrangement n x -> arrangement n (Numpy.swap x a b).
Proof.
  intros Ha Hb [Hlen [Hnd Hlt]]. subst n.
  split; [apply swap_length|]. split.
  - apply (NoDup_nth _ 0). rewrite swap_length. intros p r Hp Hr.
    rewrite !nth_swap by assumption.
    pose proof (proj1 (NoDup_nth x 0) Hnd) as Hinj.
    destruct (Nat.eqb_spec p b), (Nat.eqb_spec r b),
             (Nat.eqb_spec p a), (Nat.eqb_spec r a);
      subst; intros Heq; try reflexivity;
      try (apply Hinj in Heq; [congruence || lia | lia | lia]).
  - apply Forall_nth. rewrite swap_length. intros p d Hp.
    rewrite (nth_indep _ d 0) by (now rewrite swap_length).
    rewrite nth_swap by assumption.
    pose proof (proj1 (Forall_nth (fun y => y < length x) x) Hlt) as Hall.
    destruct (p =? b); [now apply Hall|].
    destruct (p =? a); now apply Hall.
Qed.

Lemma shuffle_from_arrangement (n i : nat) (st : RandomState)
    (x : list nat) :
  i < n -> arrangement n x ->
  arrangement n (fst (Numpy.shuffle_from i st x)).
Proof.
  revert st x. induction i as [|i IH]; intros st x Hi Hx; [exact Hx|].
  cbn [Numpy.shuffle_from]. unfold Numpy.random_interval.
  apply IH; [lia|].
  apply swap_arrangement; [lia| |exact Hx].
  assert (Hm : Numpy.tape st (Numpy.cursor st) mod (S (S i)) < S (S i))
    by (apply Nat.mod_upper_bound; discriminate).
  lia.
Qed.

Lemma seq_arrangement (n : nat) : arrangement n (seq 0 n).
Proof.
  split; [apply length_seq|]. split; [apply seq_NoDup|].
  apply Forall_forall. intros y Hy. apply in_seq in Hy. lia.
Qed.

(** [permutation(n)] holds each of [0 .. n-1] once, whatever the state. *)
Lemma permutation_arrangement (st : RandomState) (n : nat) :
  arrangement n (fst (Numpy.permutation st n)).
Proof.
  unfold Numpy.permutation. destruct n as [|n].
  - simpl. apply (seq_arrangement 0).
  - apply shuffle_from_arrangement; [lia|apply seq_arrangement].
Qed.

Lemma firstn_incl {A : Type} (n : nat) (l : list A) (a : A) :
  In a (firstn n l) -> In a l.
Proof.
  intros H. rewrite <- (firstn_skipn n l). apply in_or_app. now left.
Qed.

Lemma firstn_NoDup {A : Type} (n : nat) (l : list A) :
  NoDup l -> NoDup (firstn n l).
Proof.
  intros H. rewrite <- (firstn_skipn n l) in H.
  now apply NoDup_app_remove_r in H.
Qed.

Lemma firstn_Forall {A : Type} (P : A -> Prop) (n : nat) (l : list A) :
  Forall P l -> Forall P (firstn n l).
Proof.
  rewrite !Forall_forall. intros H a Hin. apply H.
  now apply firstn_incl in Hin.
Qed.

(** [choice] of [size] out of [pop_size], [0 <= size <= pop_size], returns
    [size] distinct positions below [pop_size]. *)
Lemma choice_returns (st : RandomState) (pop_size : nat) (size : Z) :
  (0 <= size <= Z.of_nat pop_size)%Z ->
  exists idx st',
    Numpy.choice st pop_size size = inr (idx, st') /\
    length idx = Z.to_nat size /\ NoDup idx /\
    Forall (fun p => p < pop_size) idx.
Proof.
  intros [H0 H1]. unfold Numpy.choice.
  destruct (Z.ltb_spec (Z.of_nat pop_size) size); [lia|].
  destruct (Z.ltb_spec size 0); [lia|].
  pose proof (permutation_arrangement st pop_size) as [Hlen [Hnd Hlt]].
  destruct (Numpy.permutation st pop_size) as [idx st'] eqn:E.
  simpl in *. exists (firstn (Z.to_nat size) idx), st'.
  split; [reflexivity|]. split; [|split].
  - rewrite length_firstn. lia.
  - now apply firstn_NoDup.
  - now apply firstn_Forall.
Qed.

(** ** [take] and [sample] *)

Section Take.
Variable A : Type.

Lemma take_In (x : list A) (idx : list nat) (a : A) :
  In a (Pandas.take x idx) <->
  exists p, In p idx /\ nth_error x p = Some a.
Proof.
  unfold Pandas.take. rewrite in_flat_map. split.
  - intros [p [Hp Ha]]. exists p. split; [exact Hp|].
    destruct (nth_error x p) as [r|]; [|contradiction].
    destruct Ha as [Ha|[]]. now subst.
  - intros [p [Hp Ha]]. exists p. split; [exact Hp|].
    rewrite Ha. now left.
Qed.

Lemma take_incl (x : list A) (idx : list nat) (a : A) :
  In a (Pandas.take x idx) -> In a x.
Proof.
  rewrite take_In. intros [p [_ Hp]]. now apply nth_error_In in Hp.
Qed.

Lemma take_cons (x : list A) (p : nat) (idx : list nat) :
  Pandas.take x (p :: idx) =
  match nth_error x p with Some r => [r] | None => [] end
  ++ Pandas.take x idx.
Proof. reflexivity. Qed.

Lemma take_app (x : list A) (idx1 idx2 : list nat) :
  Pandas.take x (idx1 ++ idx2) = Pandas.take x idx1 ++ Pandas.take x idx2.
Proof. unfold Pandas.take. apply flat_map_app. Qed.

Lemma take_length (x : list A) (idx : list nat) :
  Forall (fun p => p < length x) idx ->
  length (Pandas.take x idx) = length idx.
Proof.
  induction 1 as [|p idx Hp _ IH]; [reflexivity|].
  rewrite take_cons, length_app, IH.
  apply nth_error_Some in Hp.
  destruct (nth_error x p); [reflexivity|congruence].
Qed.

Lemma take_NoDup (x : list A) (idx : list nat) :
  NoDup x -> NoDup idx -> NoDup (Pandas.take x idx).
Proof.
  intros Hx. induction 1 as [|p idx Hp _ IH]; [constructor|].
  rewrite take_cons. destruct (nth_error x p) as [r|] eqn:E; [|exact IH].
  simpl. constructor; [|exact IH].
  rewrite take_In. intros [p' [Hin Hr]].
  assert (p = p').
  { apply (proj1 (NoDup_nth_error x) Hx).
    - apply nth_error_Some. congruence.
    - congruence. }
  now subst.
Qed.

Lemma take_seq_offset (l1 l2 : list A) :
  Pandas.take (l1 ++ l2) (seq (length l1) (length l2)) = l2.
Proof.
  revert l1. induction l2 as [|a l2 IH]; intros l1; [reflexivity|].
  simpl length. simpl seq. rewrite take_cons.
  rewrite nth_error_app2 by lia. rewrite Nat.sub_diag. simpl.
  f_equal. specialize (IH (l1 ++ [a])).
  rewrite <- app_assoc, length_app, Nat.add_1_r in IH. exact IH.
Qed.

Lemma take_all (x : list A) : Pandas.take x (seq 0 (length x)) = x.
Proof. exact (take_seq_offset [] x). Qed.
End Take.

(** Python's [round] keeps a number of the interval [0 .. n] in it. *)
Lemma round_bounds (frac : Q) (n : nat) :
  (0 <= frac)%Q -> (frac <= 1)%Q ->
  (0 <= Pandas.round (frac * inject_Z (Z.of_nat n)) <= Z.of_nat n)%Z.
Proof.
  destruct frac as [a b]. unfold Qle. cbn [Qnum Qden]. intros H0 H1.
  unfold Pandas.round, Qmult, inject_Z. cbn [Qnum Qden].
  rewrite Pos.mul_1_r.
  set (N := Z.of_nat n). set (d := Z.pos b).
  assert (Hd : (0 < d)%Z) by (subst d; lia).
  assert (HN : (0 <= N)%Z) by (subst N; lia).
  assert (Ha : (0 <= a <= d)%Z) by (subst d; lia).
  pose proof (Z.div_mod (a * N) d ltac:(lia)) as Hdm.
  pose proof (Z.mod_pos_bound (a * N) d Hd) as Hm.
  assert (HX : (0 <= a * N <= N * d)%Z) by nia.
  assert (Hlo : (0 <= a * N / d <= N)%Z).
  { split; [apply Z.div_pos; lia|].
    apply Z.div_le_upper_bound; lia. }
  cbv zeta.
  destruct (Z.ltb_spec (2 * ((a * N) mod d)) d); [lia|].
  assert (Hlt : (a * N / d < N)%Z) by nia.
  destruct (Z.ltb_spec d (2 * ((a * N) mod d))); [lia|].
  destruct (Z.even (a * N / d)); lia.
Qed.

(** For a fraction of [0 .. 1] [sample] does not raise: it returns the rows
    at [sample_count] distinct positions of the frame. *)
Lemma sample_returns (frac : Q) (st : RandomState) (x : list nat) :
  (0 <= frac)%Q -> (frac <= 1)%Q ->
  exists idx st',
    Pandas.sample frac st x = inr (Pandas.take x idx, st') /\
    length idx = sample_count frac (length x) /\ NoDup idx /\
    Forall (fun p => p < length x) idx.
Proof.
  intros H0 H1. unfold Pandas.sample, Pandas.Qltb.
  rewrite (proj2 (Qle_bool_iff frac 1) H1).
  rewrite (proj2 (Qle_bool_iff 0 frac) H0). simpl.
  destruct (choice_returns st (length x) _ (round_bounds frac (length x) H0 H1))
    as [idx [st' [Hc [Hlen [Hnd Hlt]]]]].
  rewrite Hc. simpl. exists idx, st'. auto.
Qed.

(** ** Grouping by (t, i, j) *)

Lemma key_compare_eq (a b : Pandas.Key) :
  Pandas.key_compare a b = Eq <-> a = b.
Proof.
  destruct a as [[a1 a2] a3], b as [[b1 b2] b3].
  unfold Pandas.key_compare. simpl. split.
  - destruct (Z.compare_spec a1 b1); try discriminate.
    destruct (Z.compare_spec a2 b2); try discriminate.
    destruct (Z.compare_spec a3 b3); try discriminate.
    intros _. congruence.
  - intros H. inversion H; subst. now rewrite !Z.compare_refl.
Qed.

Lemma key_eqb_eq (a b : Pandas.Key) : Pandas.key_eqb a b = true <-> a = b.
Proof.
  unfold Pandas.key_eqb. rewrite <- key_compare_eq.
  destruct (Pandas.key_compare a b); split; congruence.
Qed.

Lemma key_lt_trans (a b c : Pandas.Key) :
  key_lt a b -> key_lt b c -> key_lt a c.
Proof.
  destruct a as [[a1 a2] a3], b as [[b1 b2] b3], c as [[c1 c2] c3].
  unfold key_lt, Pandas.key_compare. simpl.
  destruct (Z.compare_spec a1 b1), (Z.compare_spec b1 c1),
           (Z.compare_spec a1 c1); try discriminate; try lia; auto;
  destruct (Z.compare_spec a2 b2), (Z.compare_spec b2 c2),
           (Z.compare_spec a2 c2); try discriminate; try lia; auto;
  destruct (Z.compare_spec a3 b3), (Z.compare_spec b3 c3),
           (Z.compare_spec a3 c3); try discriminate; try lia; auto.
Qed.

Lemma key_compare_gt (a b : Pandas.Key) :
  Pandas.key_compare a b = Gt -> key_lt b a.
Proof.
  destruct a as [[a1 a2] a3], b as [[b1 b2] b3].
  unfold key_lt, Pandas.key_compare. simpl.
  destruct (Z.compare_spec a1 b1), (Z.compare_spec b1 a1);
    try discriminate; try lia; auto;
  destruct (Z.compare_spec a2 b2), (Z.compare_spec b2 a2);
    try discriminate; try lia; auto;
  destruct (Z.compare_spec a3 b3), (Z.compare_spec b3 a3);
    try discriminate; try lia; auto.
Qed.

Lemma insert_key_In (key x : Pandas.Key) (keys : list Pandas.Key) :
  In x (Pandas.insert_key key keys) <-> x = key \/ In x keys.
Proof.
  induction keys as [|h tl IH]; simpl; [intuition|].
  destruct (Pandas.key_compare key h) eqn:E; simpl.
  - apply key_compare_eq in E. subst h. intuition.
  - intuition.
  - rewrite IH. intuition.
Qed.

Lemma insert_key_sorted (key : Pandas.Key) (keys : list Pandas.Key) :
  StronglySorted key_lt keys ->
  StronglySorted key_lt (Pandas.insert_key key keys).
Proof.
  induction 1 as [|h tl Hs IH Hall]; simpl.
  - repeat constructor.
  - destruct (Pandas.key_compare key h) eqn:E.
    + now constructor.
    + constructor; [now constructor|]. constructor; [exact E|].
      eapply Forall_impl; [|exact Hall].
      intros x Hx. now apply (key_lt_trans key h x).
    + constructor; [exact IH|].
      apply Forall_forall. intros x Hx. apply insert_key_In in Hx.
      destruct Hx as [->|Hx]; [now apply key_compare_gt|].
      now apply (proj1 (Forall_forall _ _) Hall).
Qed.

Lemma sorted_keys_sorted {Row : Type} (key_of : Row -> Pandas.Key)
    (df : list Row) :
  StronglySorted key_lt (Pandas.sorted_keys key_of df).
Proof.
  unfold Pandas.sorted_keys. induction (map key_of df); simpl.
  - constructor.
  - now apply insert_key_sorted.
Qed.

Lemma sorted_keys_NoDup {Row : Type} (key_of : Row -> Pandas.Key)
    (df : list Row) :
  NoDup (Pandas.sorted_keys key_of df).
Proof.
  induction (sorted_keys_sorted key_of df) as [|h tl Hs IH Hall];
    constructor; [|exact IH].
  intros Hin. apply (proj1 (Forall_forall _ _) Hall) in Hin.
  unfold key_lt in Hin. now rewrite (proj2 (key_compare_eq h h) eq_refl) in Hin.
Qed.

Lemma sorted_keys_In {Row : Type} (key_of : Row -> Pandas.Key)
    (df : list Row) (key : Pandas.Key) :
  In key (Pandas.sorted_keys key_of df) <-> In key (map key_of df).
Proof.
  unfold Pandas.sorted_keys. induction (map key_of df) as [|h tl IH]; simpl.
  - reflexivity.
  - rewrite insert_key_In, IH. intuition.
Qed.

Lemma group_labels_In (df : DataFrame) (key : Pandas.Key) (p : nat) :
  In p (Pandas.group_labels key_of df key) <->
  exists r, nth_error df p = Some r /\ key_of r = key.
Proof.
  unfold Pandas.group_labels. rewrite filter_In, in_seq. split.
  - intros [_ H]. destruct (nth_error df p) as [r|]; [|discriminate].
    exists r. split; [reflexivity|]. now apply key_eqb_eq.
  - intros [r [Hr Hk]]. split.
    + assert (p < length df) by (apply nth_error_Some; congruence). lia.
    + rewrite Hr. now apply key_eqb_eq.
Qed.

Lemma group_labels_NoDup (df : DataFrame) (key : Pandas.Key) :
  NoDup (Pandas.group_labels key_of df key).
Proof. apply NoDup_filter, seq_NoDup. Qed.




(** ** The sampler switched on *)

Lemma sample_count_zero (frac : Q) :
  (0 <= frac)%Q -> (frac <= 1)%Q -> sample_count frac 0 = 0.
Proof.
  intros H0 H1. unfold sample_count.
  pose proof (round_bounds frac 0 H0 H1). simpl in *. lia.
Qed.

Lemma sample_count_le (frac : Q) (n : nat) :
  (0 <= frac)%Q -> (frac <= 1)%Q -> sample_count frac n <= n.
Proof.
  intros H0 H1. unfold sample_count.
  pose proof (round_bounds frac n H0 H1). lia.
Qed.

Lemma sample_group_returns (self : DataProcessor) (st : RandomState)
    (x : list nat) :
  (0 <= sample_frac self)%Q -> (sample_frac self <= 1)%Q -> NoDup x ->
  exists res st',
    sample_group self st x = inr (res, st') /\
    drawn_from (sample_frac self) x res.
Proof.
  intros H0 H1 Hx. unfold sample_group.
  destruct (Nat.ltb_spec 0 (length x)) as [Hlen|Hlen].
  - destruct (sample_returns (sample_frac self) st x H0 H1)
      as [idx [st' [Hs [Hl [Hnd Hlt]]]]].
    exists (Pandas.take x idx), st'. split; [exact Hs|].
    split; [now apply take_NoDup|]. split.
    + intros p. apply take_incl.
    + now rewrite take_length.
  - exists x, st. split; [reflexivity|].
    split; [exact Hx|]. split; [auto|].
    assert (length x = 0) as -> by lia.
    now rewrite sample_count_zero.
Qed.

Lemma apply_groupwise_returns
    (f : RandomState -> list nat -> Result (list nat * RandomState))
    (P : list nat -> list nat -> Prop) (groups : list (list nat)) :
  (forall st x, In x groups ->
     exists res st', f st x = inr (res, st') /\ P x res) ->
  forall st, exists values st',
    Pandas.apply_groupwise f st groups = inr (values, st') /\
    Forall2 P groups values.
Proof.
  induction groups as [|x groups IH]; intros Hf st.
  - exists [], st. split; [reflexivity|constructor].
  - destruct (Hf st x (or_introl eq_refl)) as [res [st1 [Hres HP]]].
    destruct (IH (fun st0 x0 H => Hf st0 x0 (or_intror H)) st1)
      as [values [st2 [Hv HF]]].
    exists (res :: values), st2. split.
    + simpl. rewrite Hres. simpl. rewrite Hv. reflexivity.
    + now constructor.
Qed.


Section Drawn.
Variable frac : Q.
Variable df : DataFrame.
Variable key : Pandas.Key.





(** The labels drawn from the groups of distinct keys are distinct labels
    of the frame. *)
Lemma concat_drawn_NoDup (keys : list Pandas.Key)
    (values : list (list nat)) :
  NoDup keys ->
  Forall2 (drawn_from frac)
          (map (Pandas.group_labels key_of df) keys) values ->
  NoDup (List.concat values) /\
  forall p, In p (List.concat values) ->
    exists key', In key' keys /\
                 In p (Pandas.group_labels key_of df key').
Proof.
  revert values. induction keys as [|key' keys IH]; intros values Hnd HF;
    inversion HF as [|x res xs values' Hd HF' Hx]; subst.
  - split; [constructor|]. intros p [].
  - inversion Hnd as [|? ? Hnotin Hnd']; subst.
    destruct (IH values' Hnd' HF') as [IHnd IHin].
    destruct Hd as [Hres [Hincl _]]. cbn [List.concat]. split.
    + apply NoDup_app; [exact Hres|exact IHnd|].
      intros p Hp Hp'. apply IHin in Hp'.
      destruct Hp' as [key2 [Hk2 Hp2]].
      apply Hincl, group_labels_In in Hp. destruct Hp as [r [Hr Hk]].
      apply group_labels_In in Hp2. destruct Hp2 as [r2 [Hr2 Hk2']].
      assert (E : key2 = key') by congruence.
      rewrite E in Hk2. contradiction.
    + intros p Hp. apply in_app_or in Hp. destruct Hp as [Hp|Hp].
      * exists key'. split; [now left|now apply Hincl].
      * destruct (IHin p Hp) as [key2 [Hk2 Hp2]].
        exists key2. split; [now right|exact Hp2].
Qed.
End Drawn.





(** Fraction 0.5 on the sample batch, the generator drawing zeros: rows 1
    to 5 of the ten rows of group (2020, 4, 8), and the second of the two
    rows of group (2021, 4, 8). *)
Example stratified_sample_half_of_ten :
  stratified_sample (Sample.processor true (1#2) "csv") Sample.zeros
    Sample.batch =
  inr (Pandas.take Sample.batch [1; 2; 3; 4; 5; 11],
       {| Numpy.tape := fun _ => 0; Numpy.cursor := 10 |}).
Proof. reflexivity. Qed.

(** A tie goes to the even integer: half of one row is no row, half of
    three rows is two, half of five rows is two. *)
Example sample_count_ties :
  sample_count (1#2) 1 = 0 /\ sample_count (1#2) 3 = 2 /\
  sample_count (1#2) 5 = 2 /\ sample_count (1#100) 50 = 0.
Proof. repeat split. Qed.


(** ** The pool of workers *)

Lemma wait_for_finished (submitted task : nat) (pending done ws : list nat)
    (p : Futures.Pool) :
  Futures.wait_for submitted task done pending = (ws, p) ->
  Futures.finished p = done ++ ws /\ In task ws.
Proof.
  revert done ws p. induction pending as [|w rest IH]; intros done ws p; simpl.
  - intros H. inversion H; subst. simpl. split; [reflexivity|now left].
  - destruct ((w <? submitted) && negb (Futures.is_finished w done)).
    + destruct (Nat.eqb_spec w task).
      * intros H. inversion H; subst. simpl. split; [reflexivity|now left].
      * destruct (Futures.wait_for submitted task (done ++ [w]) rest)
          as [ws0 p0] eqn:E.
        intros H. inversion H; subst.
        destruct (IH _ _ _ E) as [Hf Hin]. split.
        -- rewrite Hf, <- app_assoc. reflexivity.
        -- now right.
    + apply IH.
Qed.

(** After [future.result()] the task has finished, and the tasks reported
    are those that finished meanwhile. *)
Lemma result_finished (submitted task : nat) (p p' : Futures.Pool)
    (ws : list nat) :
  Futures.result submitted task p = (ws, p') ->
  Futures.finished p' = Futures.finished p ++ ws /\
  In task (Futures.finished p').
Proof.
  unfold Futures.result.
  destruct (Futures.is_finished task (Futures.finished p)) eqn:E.
  - intros H. inversion H; subst. rewrite app_nil_r. split; [reflexivity|].
    unfold Futures.is_finished in E. apply existsb_exists in E.
    destruct E as [x [Hx Heq]]. apply Nat.eqb_eq in Heq. now subst.
  - intros H. apply wait_for_finished in H. destruct H as [Hf Hin].
    split; [exact Hf|]. rewrite Hf. apply in_or_app. now right.
Qed.

(** ** The loop over the futures *)

Section Collect.
Variables progress_callback log_callback : bool.
Variable total : nat.

Local Abbreviation step :=
  (collect_step progress_callback log_callback total).

(** What one turn of the loop does to its variables. *)
Lemma collect_step_spec (c : Collector) (i : nat)
    (future : Result DataFrame) :
  exists ws,
    Futures.result total i (pool c) = (ws, pool (step c (i, future))) /\
    processed_data (step c (i, future)) =
      processed_data c ++ returned [future] /\
    events (step c (i, future)) =
      events c ++ map WorkerDone ws
      ++ match future with
         | inr _ =>
             callbacks_for progress_callback log_callback total (i, future)
         | inl e => [LoggerError (ErrorProcessingFile i e)]
         end.
Proof.
  unfold collect_step.
  destruct (Futures.result total i (pool c)) as [ws p'].
  exists ws. destruct future as [e|df]; simpl.
  - split; [reflexivity|]. split; [now rewrite app_nil_r|].
    now rewrite <- app_assoc.
  - split; [reflexivity|]. split; [reflexivity|].
    unfold callbacks_for. simpl. now rewrite <- !app_assoc.
Qed.

Lemma file_callbacks_app (tr1 tr2 : list Event) :
  file_callbacks (tr1 ++ tr2) = file_callbacks tr1 ++ file_callbacks tr2.
Proof. apply filter_app. Qed.

Lemma file_callbacks_workers (ws : list nat) :
  file_callbacks (map WorkerDone ws) = [].
Proof. induction ws; simpl; auto. Qed.

Lemma file_callbacks_callbacks_for (item : nat * Result DataFrame) :
  file_callbacks (callbacks_for progress_callback log_callback total item)
  = callbacks_for progress_callback log_callback total item.
Proof.
  unfold callbacks_for. destruct (snd item); [reflexivity|].
  destruct progress_callback, log_callback; reflexivity.
Qed.

Lemma completions_app (tr1 tr2 : list Event) :
  completions (tr1 ++ tr2) = completions tr1 ++ completions tr2.
Proof.
  induction tr1 as [|e tr1 IH]; [reflexivity|].
  destruct e; simpl; now rewrite IH.
Qed.

Lemma completions_workers (ws : list nat) :
  completions (map WorkerDone ws) = ws.
Proof. induction ws; simpl; congruence. Qed.

Lemma completions_callbacks_for (item : nat * Result DataFrame) :
  completions (callbacks_for progress_callback log_callback total item) = [].
Proof.
  unfold callbacks_for. destruct (snd item); [reflexivity|].
  destruct progress_callback, log_callback; reflexivity.
Qed.

(** The loop appends the frames of the futures that returned, in the order
    of the futures. *)
Lemma collect_processed (items : list (nat * Result DataFrame))
    (c : Collector) :
  processed_data (fold_left step items c) =
  processed_data c ++ returned (map snd items).
Proof.
  revert c. induction items as [|[i future] items IH]; intros c; cbn [fold_left map returned flat_map].
  - now rewrite app_nil_r.
  - rewrite IH. destruct (collect_step_spec c i future) as [ws [_ [Hp _]]].
    rewrite Hp, <- app_assoc. destruct future; reflexivity.
Qed.

(** The per-file callbacks are made future by future, in the order of the
    futures, and only for futures that returned. *)
Lemma collect_callbacks (items : list (nat * Result DataFrame))
    (c : Collector) :
  file_callbacks (events (fold_left step items c)) =
  file_callbacks (events c)
  ++ flat_map (callbacks_for progress_callback log_callback total) items.
Proof.
  revert c. induction items as [|[i future] items IH]; intros c; cbn [fold_left map returned flat_map].
  - now rewrite app_nil_r.
  - rewrite IH. destruct (collect_step_spec c i future) as [ws [_ [_ He]]].
    rewrite He, !file_callbacks_app, file_callbacks_workers.
    rewrite <- app_assoc. f_equal. simpl. f_equal.
    destruct future as [e|df]; [reflexivity|].
    apply file_callbacks_callbacks_for.
Qed.

Lemma collect_events_grow (items : list (nat * Result DataFrame))
    (c : Collector) (ev : Event) :
  In ev (events c) -> In ev (events (fold_left step items c)).
Proof.
  revert c. induction items as [|[i future] items IH]; intros c H;
    cbn [fold_left]; [exact H|].
  apply IH. destruct (collect_step_spec c i future) as [ws [_ [_ He]]].
  rewrite He. apply in_or_app. now left.
Qed.

(** Every future that raised is reported to the logger, with its number
    and its exception. *)
Lemma collect_logs_failures (items : list (nat * Result DataFrame))
    (c : Collector) (i : nat) (e : Exception) :
  In (i, inl e) items ->
  In (LoggerError (ErrorProcessingFile i e))
     (events (fold_left step items c)).
Proof.
  revert c. induction items as [|[i' future] items IH]; intros c H;
    [contradiction|].
  cbn [fold_left]. destruct H as [H|H].
  - inversion H; subst. apply collect_events_grow.
    destruct (collect_step_spec c i (inl e)) as [ws [_ [_ He]]].
    rewrite He. apply in_or_app. right. apply in_or_app. right. now left.
  - now apply IH.
Qed.

(** Every future is waited for: by the end of the loop each task has
    finished, and the trace records it. *)
Lemma collect_completions (items : list (nat * Result DataFrame))
    (c : Collector) :
  completions (events c) = Futures.finished (pool c) ->
  completions (events (fold_left step items c)) =
    Futures.finished (pool (fold_left step items c)) /\
  forall i future, In (i, future) items ->
    In i (completions (events (fold_left step items c))).
Proof.
  revert c. induction items as [|[i future] items IH]; intros c Hc;
    cbn [fold_left].
  - split; [exact Hc|]. intros ? ? [].
  - destruct (collect_step_spec c i future) as [ws [Hr [_ He]]].
    apply result_finished in Hr. destruct Hr as [Hf Hin].
    assert (Hc' : completions (events (step c (i, future))) =
                  Futures.finished (pool (step c (i, future)))).
    { rewrite He, Hf, !completions_app, completions_workers, Hc.
      destruct future as [e|df]; simpl.
      - now rewrite app_nil_r.
      - now rewrite completions_callbacks_for, app_nil_r. }
    destruct (IH _ Hc') as [IH1 IH2]. split; [exact IH1|].
    intros i0 future0 [H|H]; [|now apply (IH2 i0 future0)].
    inversion H; subst.
    assert (Hgrow : forall n, In (WorkerDone n)
                      (events (step c (i0, future0))) ->
              In n (completions (events
                      (fold_left step items (step c (i0, future0)))))).
    { intros n Hn.
      apply (collect_events_grow items) in Hn.
      clear - Hn. induction (events _) as [|ev tr IHtr]; [contradiction|].
      destruct Hn as [->|Hn]; [now left|].
      destruct ev; simpl; auto. }
    apply Hgrow. rewrite <- Hc' in Hin.
    clear - Hin. induction (events _) as [|ev tr IHtr]; [contradiction|].
    destruct ev; simpl in *; auto. destruct Hin as [->|Hin]; auto.
Qed.
End Collect.

(** ** [process_data] *)

Lemma enumerate_from_In {A : Type} (l : list A) (start i : nat) (x : A) :
  In (i, x) (combine (seq start (length l)) l) <->
  start <= i /\ nth_error l (i - start) = Some x.
Proof.
  revert start. induction l as [|a l IH]; intros start; simpl.
  - split; [intros []|]. intros [_ H]. destruct (i - start); discriminate.
  - rewrite IH. split.
    + intros [H|[Hle Hn]].
      * inversion H; subst. rewrite Nat.sub_diag. auto.
      * split; [lia|]. replace (i - start) with (S (i - S start)) by lia.
        exact Hn.
    + intros [Hle Hn]. destruct (i - start) as [|m] eqn:E.
      * left. simpl in Hn. inversion Hn; subst. f_equal. lia.
      * right. split; [lia|]. replace (i - S start) with m by lia. exact Hn.
Qed.

Lemma enumerate_In {A : Type} (l : list A) (i : nat) (x : A) :
  In (i, x) (enumerate l) <-> nth_error l i = Some x.
Proof.
  unfold enumerate. rewrite enumerate_from_In, Nat.sub_0_r.
  split; [now intros [_ H]|]. intros H. split; [lia|exact H].
Qed.

Lemma enumerate_snd {A : Type} (l : list A) : map snd (enumerate l) = l.
Proof.
  unfold enumerate. generalize 0.
  induction l as [|a l IH]; intros n; simpl; [reflexivity|].
  now rewrite IH.
Qed.

Lemma enumerate_length {A : Type} (l : list A) :
  length (enumerate l) = length l.
Proof.
  unfold enumerate. rewrite length_combine, length_seq. apply Nat.min_id.
Qed.

Lemma submit_all_length (self : DataProcessor) (an : Analysis)
    (worker_rng : nat -> RandomState) :
  length (submit_all self an worker_rng) = length (main_files an).
Proof. unfold submit_all. now rewrite length_map, enumerate_length. Qed.

Lemma returned_nil_iff {A : Type} (futures : list (Result A)) :
  returned futures = [] <-> Forall (fun fut => succeeded fut = false) futures.
Proof.
  induction futures as [|[e|a] futures IH]; simpl.
  - split; [constructor|reflexivity].
  - rewrite IH. split; [now constructor|]. intros H. now inversion H.
  - split; [discriminate|]. intros H. inversion H; subst. discriminate.
Qed.

(** *** After the pool is closed *)

Lemma concat_returns (a : DataFrame) (frames : list DataFrame) :
  Pandas.concat (a :: frames) = inr (List.concat (a :: frames)).
Proof. reflexivity. Qed.

Lemma save_data_supported (df : DataFrame) (fmt : string) :
  supported_format fmt = true -> exists w, save_data df fmt = inr w.
Proof.
  unfold supported_format, save_data.
  destruct (String.eqb fmt "parquet"); [eauto|].
  destruct (String.eqb fmt "feather"); [eauto|].
  destruct (String.eqb fmt "csv"); [eauto|].
  destruct (String.eqb fmt "hdf5"); [eauto|]. discriminate.
Qed.

Lemma save_data_unsupported (df : DataFrame) (fmt : string) :
  supported_format fmt = false ->
  save_data df fmt = inl (UnsupportedOutputFormat fmt).
Proof.
  unfold supported_format, save_data.
  destruct (String.eqb fmt "parquet"); [discriminate|].
  destruct (String.eqb fmt "feather"); [discriminate|].
  destruct (String.eqb fmt "csv"); [discriminate|].
  destruct (String.eqb fmt "hdf5"); [discriminate|]. reflexivity.
Qed.

Lemma save_data_raises (df : DataFrame) (fmt : string) (e : Exception) :
  save_data df fmt = inl e -> e = UnsupportedOutputFormat fmt.
Proof.
  unfold save_data.
  destruct (String.eqb fmt "parquet"); [discriminate|].
  destruct (String.eqb fmt "feather"); [discriminate|].
  destruct (String.eqb fmt "csv"); [discriminate|].
  destruct (String.eqb fmt "hdf5"); [discriminate|].
  intros H. now inversion H.
Qed.

(** A run that gets as far as writing has merged the frames collected, in
    the order collected, and puts the number of main files found into
    [total_files_processed]. *)
Lemma finish_returns (self : DataProcessor) (an : Analysis)
    (processed : list DataFrame) (out : Output) :
  finish self an processed = inr out ->
  final_data out = List.concat processed /\
  total_rows_processed (metadata out) = length (List.concat processed) /\
  total_files_processed (metadata out) = length (main_files an).
Proof.
  destruct processed as [|a frames]; [discriminate|].
  unfold finish. cbv beta iota. rewrite (concat_returns a frames). cbn [bind].
  destruct (save_data _ (file_format self)) as [e|w]; [discriminate|].
  cbn [bind ret]. intros H. inversion H; subst. simpl. auto.
Qed.

(** The run raises [No data was successfully processed] exactly when no
    frame was collected. *)
Lemma finish_no_data (self : DataProcessor) (an : Analysis)
    (processed : list DataFrame) :
  finish self an processed = inl NoDataProcessed <-> processed = [].
Proof.
  split.
  - destruct processed as [|a frames]; [reflexivity|].
    unfold finish. cbv beta iota. rewrite (concat_returns a frames). cbn [bind].
    destruct (save_data _ (file_format self)) as [e|w] eqn:E;
      [|discriminate].
    apply save_data_raises in E. subst e. cbn [bind].
    unfold UnsupportedOutputFormat, NoDataProcessed. discriminate.
  - intros ->. reflexivity.
Qed.

Lemma finish_unsupported (self : DataProcessor) (an : Analysis)
    (processed : list DataFrame) :
  processed <> [] -> supported_format (file_format self) = false ->
  finish self an processed = inl (UnsupportedOutputFormat (file_format self)).
Proof.
  intros Hne Hfmt. destruct processed as [|a frames]; [contradiction|].
  unfold finish. cbv beta iota. rewrite (concat_returns a frames). cbn [bind].
  now rewrite (save_data_unsupported _ _ Hfmt).
Qed.

Lemma finish_supported (self : DataProcessor) (an : Analysis)
    (processed : list DataFrame) :
  processed <> [] -> supported_format (file_format self) = true ->
  exists out, finish self an processed = inr out.
Proof.
  intros Hne Hfmt. destruct processed as [|a frames]; [contradiction|].
  unfold finish. cbv beta iota. rewrite (concat_returns a frames). cbn [bind].
  destruct (save_data_supported (List.concat (a :: frames)) _ Hfmt)
    as [w Hw].
  rewrite Hw. cbn [bind ret]. eauto.
Qed.

(** *** The whole run *)

Lemma collect_returned (pcb lcb : bool) (total : nat)
    (futures : list (Result DataFrame)) (schedule : list nat) :
  processed_data (collect pcb lcb total futures schedule) = returned futures.
Proof.
  unfold collect. rewrite collect_processed. simpl.
  now rewrite enumerate_snd.
Qed.

Lemma collect_file_callbacks (pcb lcb : bool) (total : nat)
    (futures : list (Result DataFrame)) (schedule : list nat) :
  file_callbacks (events (collect pcb lcb total futures schedule)) =
  flat_map (callbacks_for pcb lcb total) (enumerate futures).
Proof. unfold collect. now rewrite collect_callbacks. Qed.

(** Once [analyze_files] has returned, the run is the loop over the futures
    followed by the closing steps, which make no per-file callback. *)
Lemma process_data_analyzed (self : DataProcessor) (pcb lcb : bool)
    (csv_files : list CsvFile) (worker_rng : nat -> RandomState)
    (schedule : list nat) (an : Analysis) :
  analyze_files csv_files = inr an ->
  let futures := submit_all self an worker_rng in
  let c := collect pcb lcb (length (main_files an)) futures schedule in
  let run := process_data self pcb lcb csv_files worker_rng schedule in
  outcome run = finish self an (returned futures) /\
  exists closing,
    trace run = events c ++ closing /\
    file_callbacks closing = [] /\ completions closing = [].
Proof.
  intros Han. cbv zeta. unfold process_data. rewrite Han.
  rewrite collect_returned.
  destruct (finish self an _) as [e|out]; cbn [outcome trace].
  - split; [reflexivity|]. eexists. split; [reflexivity|].
    destruct lcb; split; reflexivity.
  - split; [reflexivity|]. eexists. split; [reflexivity|].
    destruct lcb; split; reflexivity.
Qed.

Lemma process_data_not_analyzed (self : DataProcessor) (pcb lcb : bool)
    (csv_files : list CsvFile) (worker_rng : nat -> RandomState)
    (schedule : list nat) (e : Exception) :
  analyze_files csv_files = inl e ->
  let run := process_data self pcb lcb csv_files worker_rng schedule in
  outcome run = inl e /\ file_callbacks (trace run) = [] /\
  completions (trace run) = [].
Proof.
  intros Han. cbv zeta. unfold process_data. rewrite Han.
  cbn [outcome trace]. destruct lcb; repeat split.
Qed.

(** The per-file callbacks of a run, whatever the order in which the
    workers finish. *)
Lemma process_data_file_callbacks (self : DataProcessor) (pcb lcb : bool)
    (csv_files : list CsvFile) (worker_rng : nat -> RandomState)
    (schedule : list nat) :
  let futures := futures_of self csv_files worker_rng in
  file_callbacks
    (trace (process_data self pcb lcb csv_files worker_rng schedule)) =
  flat_map (callbacks_for pcb lcb (length futures)) (enumerate futures).
Proof.
  cbv zeta. unfold futures_of.
  destruct (analyze_files csv_files) as [e|an] eqn:Han.
  - now destruct (process_data_not_analyzed self pcb lcb csv_files worker_rng
                    schedule e Han) as [_ [H _]].
  - destruct (process_data_analyzed self pcb lcb csv_files worker_rng
                schedule an Han) as [_ [closing [Ht [Hc _]]]].
    rewrite Ht, file_callbacks_app, Hc, app_nil_r, collect_file_callbacks.
    now rewrite submit_all_length.
Qed.

Lemma process_data_final_data (self : DataProcessor) (pcb lcb : bool)
    (csv_files : list CsvFile) (worker_rng : nat -> RandomState)
    (schedule : list nat) (out : Output) :
  outcome (process_data self pcb lcb csv_files worker_rng schedule) = inr out ->
  final_data out = List.concat (returned (futures_of self csv_files worker_rng)).
Proof.
  unfold futures_of.
  destruct (analyze_files csv_files) as [e|an] eqn:Han.
  - destruct (process_data_not_analyzed self pcb lcb csv_files worker_rng
                schedule e Han) as [H _].
    rewrite H. discriminate.
  - destruct (process_data_analyzed self pcb lcb csv_files worker_rng
                schedule an Han) as [H _].
    rewrite H. intros Hf. now apply finish_returns in Hf.
Qed.

(** C9.  The coordinator takes the results of the futures in the order the
    main files were submitted: the per-file callbacks of the trace are those
    of the futures that returned, in submission order, and the data a run
    writes is the concatenation, in submission order, of the frames of the
    futures that returned.  Neither depends on the order in which the
    workers finish. *)
Theorem results_in_submission_order (self : DataProcessor) (pcb lcb : bool)
    (csv_files : list CsvFile) (worker_rng : nat -> RandomState)
    (schedule : list nat) :
  let futures := futures_of self csv_files worker_rng in
  let run := process_data self pcb lcb csv_files worker_rng schedule in
  file_callbacks (trace run) =
    flat_map (callbacks_for pcb lcb (length futures)) (enumerate futures) /\
  (forall out, outcome run = inr out ->
     final_data out = List.concat (returned futures)) /\
  (forall schedule',
     let run' := process_data self pcb lcb csv_files worker_rng schedule' in
     outcome run' = outcome run /\
     file_callbacks (trace run') = file_callbacks (trace run)).
Proof.
  cbv zeta. split; [apply process_data_file_callbacks|].
  split; [intros out; apply process_data_final_data|].
  intros schedule'. split.
  - destruct (analyze_files csv_files) as [e|an] eqn:Han.
    + destruct (process_data_not_analyzed self pcb lcb csv_files worker_rng
                  schedule e Han) as [H _].
      destruct (process_data_not_analyzed self pcb lcb csv_files worker_rng
                  schedule' e Han) as [H' _].
      congruence.
    + destruct (process_data_analyzed self pcb lcb csv_files worker_rng
                  schedule an Han) as [H _].
      destruct (process_data_analyzed self pcb lcb csv_files worker_rng
                  schedule' an Han) as [H' _].
      congruence.
  - now rewrite !process_data_file_callbacks.
Qed.

Lemma process_data_completions (self : DataProcessor) (pcb lcb : bool)
    (csv_files : list CsvFile) (worker_rng : nat -> RandomState)
    (schedule : list nat) (an : Analysis) (idx : nat) :
  analyze_files csv_files = inr an ->
  idx < length (main_files an) ->
  In idx (completions
            (trace (process_data self pcb lcb csv_files worker_rng schedule))).
Proof.
  intros Han Hidx.
  destruct (process_data_analyzed self pcb lcb csv_files worker_rng
              schedule an Han) as [_ [closing [Ht [_ Hc]]]].
  rewrite Ht, completions_app, Hc, app_nil_r.
  rewrite <- (submit_all_length self an worker_rng) in Hidx.
  destruct (nth_error (submit_all self an worker_rng) idx) as [fut|] eqn:E;
    [|apply nth_error_None in E; lia].
  apply enumerate_In in E. unfold collect.
  refine (proj2 (collect_completions pcb lcb _ _ _ _) idx fut E).
  reflexivity.
Qed.

Lemma process_data_logs_failure (self : DataProcessor) (pcb lcb : bool)
    (csv_files : list CsvFile) (worker_rng : nat -> RandomState)
    (schedule : list nat) (an : Analysis) (idx : nat) (e : Exception) :
  analyze_files csv_files = inr an ->
  nth_error (submit_all self an worker_rng) idx = Some (inl e) ->
  In (LoggerError (ErrorProcessingFile idx e))
     (trace (process_data self pcb lcb csv_files worker_rng schedule)).
Proof.
  intros Han Hidx.
  destruct (process_data_analyzed self pcb lcb csv_files worker_rng
              schedule an Han) as [_ [closing [Ht _]]].
  rewrite Ht. apply in_or_app. left. unfold collect.
  apply collect_logs_failures. now apply enumerate_In.
Qed.

(** C3.  Once the reference tables are loaded, an exception in the task of
    one main file is caught where its future is collected and logged with
    the number of the file; the loop goes on, so every task is waited for,
    and the run goes on to merge the frames of the files that returned.  The
    run raises [No data was successfully processed] exactly when the task of
    every main file raised. *)
Theorem file_failures_are_contained (self : DataProcessor) (pcb lcb : bool)
    (csv_files : list CsvFile) (worker_rng : nat -> RandomState)
    (schedule : list nat) (an : Analysis) :
  analyze_files csv_files = inr an ->
  let futures := submit_all self an worker_rng in
  let run := process_data self pcb lcb csv_files worker_rng schedule in
  (forall idx e, nth_error futures idx = Some (inl e) ->
     In (LoggerError (ErrorProcessingFile idx e)) (trace run)) /\
  (forall idx, idx < length futures -> In idx (completions (trace run))) /\
  outcome run = finish self an (returned futures) /\
  (forall out, outcome run = inr out ->
     final_data out = List.concat (returned futures)) /\
  (outcome run = inl NoDataProcessed <->
   Forall (fun fut => succeeded fut = false) futures).
Proof.
  intros Han. cbv zeta.
  destruct (process_data_analyzed self pcb lcb csv_files worker_rng
              schedule an Han) as [Hout _].
  split; [|split; [|split; [|split]]].
  - intros idx e. now apply process_data_logs_failure.
  - intros idx Hidx. rewrite submit_all_length in Hidx.
    now apply (process_data_completions self pcb lcb csv_files worker_rng
                 schedule an).
  - exact Hout.
  - intros out Ho. rewrite Hout in Ho. now apply finish_returns in Ho.
  - rewrite Hout, finish_no_data. apply returned_nil_iff.
Qed.

Lemma file_failures_are_contained_witness :
  In (LoggerError (ErrorProcessingFile 0 (OtherError "Error tokenizing data")))
     (trace (process_data (Sample.processor false 1 "csv") true true
               Sample.bad_then_good Sample.same_rng [])).
Proof.
  apply (proj1 (file_failures_are_contained
                  (Sample.processor false 1 "csv") true true
                  Sample.bad_then_good Sample.same_rng []
                  (Sample.found [Sample.corrupt_csv; Sample.good_csv])
                  eq_refl) 0).
  reflexivity.
Defined.

(** When every task raises, the run raises. *)
Example all_files_fail :
  outcome (process_data (Sample.processor false 1 "csv") true true
             Sample.only_bad Sample.same_rng []) = inl NoDataProcessed.
Proof. reflexivity. Qed.

(** C2 fails on the code.  Of two main files the first cannot be read and
    the second is processed; the run returns, and its metadata give
    [total_files_processed] as 2, the number of main files found, where one
    future returned. *)
Theorem total_files_processed_counts_failures :
  exists out,
    outcome (process_data (Sample.processor false 1 "csv") true true
               Sample.bad_then_good Sample.same_rng []) = inr out /\
    total_files_processed (metadata out) = 2 /\
    length (returned (futures_of (Sample.processor false 1 "csv")
                        Sample.bad_then_good Sample.same_rng)) = 1.
Proof. eexists. split; [reflexivity|]. split; reflexivity. Qed.

(** Whatever the futures did, [total_files_processed] is the number of main
    files found. *)
Lemma total_files_processed_is_files_found (self : DataProcessor)
    (pcb lcb : bool) (csv_files : list CsvFile)
    (worker_rng : nat -> RandomState) (schedule : list nat) (out : Output) :
  outcome (process_data self pcb lcb csv_files worker_rng schedule) = inr out ->
  total_files_processed (metadata out) =
  length (futures_of self csv_files worker_rng).
Proof.
  unfold futures_of.
  destruct (analyze_files csv_files) as [e|an] eqn:Han.
  - destruct (process_data_not_analyzed self pcb lcb csv_files worker_rng
                schedule e Han) as [H _].
    rewrite H. discriminate.
  - destruct (process_data_analyzed self pcb lcb csv_files worker_rng
                schedule an Han) as [H _].
    rewrite H, submit_all_length. intros Hf.
    now apply finish_returns in Hf.
Qed.

(** A run with a main file that fails and one that does not returns when
    the output format is one of the four. *)
Lemma partial_failure_returns (self : DataProcessor) (pcb lcb : bool)
    (csv_files : list CsvFile) (worker_rng : nat -> RandomState)
    (schedule : list nat) :
  returned (futures_of self csv_files worker_rng) <> [] ->
  supported_format (file_format self) = true ->
  exists out,
    outcome (process_data self pcb lcb csv_files worker_rng schedule) = inr out.
Proof.
  unfold futures_of.
  destruct (analyze_files csv_files) as [e|an] eqn:Han;
    [intros H; now contradiction H|].
  intros Hne Hfmt.
  destruct (process_data_analyzed self pcb lcb csv_files worker_rng
              schedule an Han) as [H _].
  rewrite H. now apply finish_supported.
Qed.

(** *** The progress reported *)

Lemma last_progress_app (tr1 tr2 : list Event) :
  last_progress (tr1 ++ tr2) =
  match last_progress tr2 with
  | Some p => Some p
  | None => last_progress tr1
  end.
Proof.
  induction tr1 as [|e tr1 IH]; simpl.
  - now destruct (last_progress tr2).
  - rewrite IH. destruct (last_progress tr2); [reflexivity|].
    reflexivity.
Qed.

Lemma last_progress_file_callbacks (tr : list Event) :
  last_progress tr = last_progress (file_callbacks tr).
Proof.
  induction tr as [|e tr IH]; [reflexivity|].
  simpl. rewrite IH.
  destruct e as [n|line|p|text]; simpl; try reflexivity.
  - now destruct (last_progress (file_callbacks tr)).
  - now destruct (last_progress (file_callbacks tr)).
  - destruct text; simpl; now destruct (last_progress (file_callbacks tr)).
Qed.

(** A percentage reported is that of a future that returned. *)
Lemma last_progress_of_returned (pcb lcb : bool) (total : nat)
    (items : list (nat * Result DataFrame)) (p : nat) :
  last_progress (flat_map (callbacks_for pcb lcb total) items) = Some p ->
  exists idx df, In (idx, inr df) items /\ p = progress_of idx total.
Proof.
  induction items as [|[idx fut] items IH]; [discriminate|].
  cbn [flat_map]. rewrite last_progress_app.
  destruct (last_progress (flat_map _ items)) as [p'|].
  - intros H. destruct (IH H) as [idx' [df [Hin Hp]]].
    exists idx', df. split; [now right|exact Hp].
  - unfold callbacks_for. cbn [fst snd].
    destruct fut as [e|df]; [discriminate|].
    destruct pcb, lcb; simpl; try discriminate;
      intros H; inversion H; subst; exists idx, df; split;
        solve [now left | reflexivity].
Qed.

(** The percentage is 100 for the last file only. *)
Lemma progress_of_full (idx total : nat) :
  idx < total -> progress_of idx total = 100 -> idx + 1 = total.
Proof.
  unfold progress_of. intros Hlt H.
  pose proof (Nat.div_mod_eq ((idx + 1) * 100) total) as Hdm.
  pose proof (Nat.mod_upper_bound ((idx + 1) * 100) total ltac:(lia)) as Hm.
  rewrite H in Hdm. nia.
Qed.

(** C10.  The per-file callbacks of a run are those of the futures that
    returned: for a future that raised the loop makes none, and the text
    announcing that file is nowhere in the trace.  So when the percentage
    last passed to the progress callback is 100, the future submitted last
    returned. *)
Theorem failed_file_makes_no_callback (self : DataProcessor) (pcb lcb : bool)
    (csv_files : list CsvFile) (worker_rng : nat -> RandomState)
    (schedule : list nat) :
  let futures := futures_of self csv_files worker_rng in
  let total := length futures in
  let run := process_data self pcb lcb csv_files worker_rng schedule in
  file_callbacks (trace run) =
    flat_map (callbacks_for pcb lcb total) (enumerate futures) /\
  (forall idx e, nth_error futures idx = Some (inl e) ->
     callbacks_for pcb lcb total (idx, inl e) = [] /\
     ~ In (LogCallback (ProcessedFile (idx + 1) total)) (trace run)) /\
  (last_progress (trace run) = Some 100 ->
   exists df, nth_error futures (total - 1) = Some (inr df)).
Proof.
  cbv zeta.
  pose proof (process_data_file_callbacks self pcb lcb csv_files worker_rng
                schedule) as Hcb. cbv zeta in Hcb.
  split; [exact Hcb|]. split.
  - intros idx e Hidx. split; [reflexivity|]. intros Hin.
    assert (Hf : In (LogCallback (ProcessedFile (idx + 1)
                       (length (futures_of self csv_files worker_rng))))
                    (file_callbacks (trace (process_data self pcb lcb
                       csv_files worker_rng schedule)))).
    { unfold file_callbacks. apply filter_In. split; [exact Hin|reflexivity]. }
    rewrite Hcb in Hf. apply in_flat_map in Hf.
    destruct Hf as [[idx' fut] [Hitem Hev]].
    unfold callbacks_for in Hev. cbn [fst snd] in Hev.
    destruct fut as [e'|df]; [contradiction|].
    apply enumerate_In in Hitem.
    assert (idx' = idx).
    { destruct pcb, lcb; simpl in Hev;
        repeat (destruct Hev as [Hev|Hev]; try discriminate;
                try contradiction);
        inversion Hev; lia. }
    subst idx'.
    assert (H : @Some (Result DataFrame) (inl e) = Some (inr df))
      by (etransitivity; [symmetry; exact Hidx | exact Hitem]).
    discriminate H.
  - rewrite last_progress_file_callbacks, Hcb. intros Hlast.
    apply last_progress_of_returned in Hlast.
    destruct Hlast as [idx [df [Hin Hp]]].
    apply enumerate_In in Hin. exists df.
    assert (Hlt : idx < length (futures_of self csv_files worker_rng)).
    { apply nth_error_Some. intros Hn.
      assert (H : @None (Result DataFrame) = Some (inr df))
        by (etransitivity; [symmetry; exact Hn | exact Hin]).
      discriminate H. }
    symmetry in Hp. apply progress_of_full in Hp; [|exact Hlt].
    replace (length (futures_of self csv_files worker_rng) - 1) with idx
      by lia.
    exact Hin.
Qed.

Lemma failed_file_makes_no_callback_witness :
  ~ In (LogCallback (ProcessedFile 2 2))
       (trace (process_data (Sample.processor false 1 "csv") true true
                 Sample.good_then_bad Sample.same_rng [1; 0])).
Proof.
  apply (proj2 (proj1 (proj2 (failed_file_makes_no_callback
                  (Sample.processor false 1 "csv") true true
                  Sample.good_then_bad Sample.same_rng [1; 0])) 1
                  (OtherError "Error tokenizing data") eq_refl)).
Defined.

(** A run that returns although its last file failed: the last percentage
    it reported is 50. *)
Example run_returns_without_full_progress :
  let run := process_data (Sample.processor false 1 "csv") true true
               Sample.good_then_bad Sample.same_rng [1; 0] in
  succeeded (outcome run) = true /\ last_progress (trace run) = Some 50.
Proof. split; reflexivity. Qed.

(** The workers finish in one order and the callbacks come in another: the
    second task finishes first, the callbacks are those of the first file,
    then those of the second. *)
Example completion_order_is_not_callback_order :
  let run := process_data (Sample.processor false 1 "csv") true true
               Sample.two_good Sample.same_rng [1; 0] in
  completions (trace run) = [1; 0] /\
  file_callbacks (trace run) =
    [ProgressCallback 50; LogCallback (ProcessedFile 1 2);
     ProgressCallback 100; LogCallback (ProcessedFile 2 2)].
Proof. split; reflexivity. Qed.

Lemma results_in_submission_order_witness :
  file_callbacks
    (trace (process_data (Sample.processor false 1 "csv") true true
              Sample.two_good Sample.same_rng [1; 0])) =
  [ProgressCallback 50; LogCallback (ProcessedFile 1 2);
   ProgressCallback 100; LogCallback (ProcessedFile 2 2)].
Proof.
  etransitivity.
  - exact (proj1 (results_in_submission_order
                    (Sample.processor false 1 "csv") true true
                    Sample.two_good Sample.same_rng [1; 0])).
  - reflexivity.
Defined.

(** *** The output format *)

(** C7 fails on the code.  A run asked for format [xlsx] does raise
    [Unsupported file format: xlsx], but not before the work: both tasks
    have run and all per-file callbacks have been made when it does. *)
Lemma unsupported_format_checked_last :
  ~ (forall (self : DataProcessor) (pcb lcb : bool)
            (csv_files : list CsvFile) (worker_rng : nat -> RandomState)
            (schedule : list nat),
       supported_format (file_format self) = false ->
       let run := process_data self pcb lcb csv_files worker_rng schedule in
       outcome run = inl (UnsupportedOutputFormat (file_format self)) /\
       completions (trace run) = [] /\ file_callbacks (trace run) = []).
Proof.
  intros H.
  destruct (H (Sample.processor false 1 "xlsx") true true Sample.two_good
              Sample.same_rng [1; 0] eq_refl) as [_ [Hc _]].
  discriminate Hc.
Qed.

(** Nor is that the exception of every such run: when no main file is
    processed the run raises [No data was successfully processed]. *)
Example unsupported_format_without_data :
  outcome (process_data (Sample.processor false 1 "xlsx") true true
             Sample.only_bad Sample.same_rng []) = inl NoDataProcessed.
Proof. reflexivity. Qed.

(** C7, as the code has it.  In a run asked for a format outside parquet,
    feather, csv and hdf5 that loads its reference tables and in which the
    task of some main file returns, [save_data] raises
    [Unsupported file format], after every task has been waited for and the
    per-file callbacks have been made. *)
Theorem unsupported_format_raised_by_save_data (self : DataProcessor)
    (pcb lcb : bool) (csv_files : list CsvFile)
    (worker_rng : nat -> RandomState) (schedule : list nat) (an : Analysis) :
  analyze_files csv_files = inr an ->
  supported_format (file_format self) = false ->
  returned (submit_all self an worker_rng) <> [] ->
  let futures := submit_all self an worker_rng in
  let run := process_data self pcb lcb csv_files worker_rng schedule in
  outcome run = inl (UnsupportedOutputFormat (file_format self)) /\
  finish self an (returned futures) = outcome run /\
  (forall idx, idx < length futures -> In idx (completions (trace run))) /\
  file_callbacks (trace run) =
    flat_map (callbacks_for pcb lcb (length futures)) (enumerate futures).
Proof.
  intros Han Hfmt Hne. cbv zeta.
  destruct (process_data_analyzed self pcb lcb csv_files worker_rng
              schedule an Han) as [Hout _].
  split; [rewrite Hout; now apply finish_unsupported|].
  split; [now rewrite Hout|]. split.
  - intros idx Hidx. rewrite submit_all_length in Hidx.
    now apply (process_data_completions self pcb lcb csv_files worker_rng
                 schedule an).
  - pose proof (process_data_file_callbacks self pcb lcb csv_files worker_rng
                  schedule) as Hcb.
    cbv zeta in Hcb. unfold futures_of in Hcb. now rewrite Han in Hcb.
Qed.

Lemma unsupported_format_raised_by_save_data_witness :
  outcome (process_data (Sample.processor false 1 "xlsx") true true
             Sample.two_good Sample.same_rng [1; 0]) =
  inl (ValueError "Unsupported file format: xlsx").
Proof.
  apply (proj1 (unsupported_format_raised_by_save_data
                  (Sample.processor false 1 "xlsx") true true
                  Sample.two_good Sample.same_rng [1; 0]
                  (Sample.found [Sample.good_csv; Sample.other_csv])
                  eq_refl eq_refl ltac:(discriminate))).
Defined.

(** * Further properties *)

(** ** What [analyze_files] takes for a main file *)

Lemma prefix_app (needle s rest : string) :
  String.prefix needle s = true ->
  String.prefix needle (s ++ rest)%string = true.
Proof.
  revert s. induction needle as [|c needle IH]; intros s H;
    [destruct (s ++ rest)%string; reflexivity|].
  destruct s as [|c' s]; [discriminate|]. simpl in *.
  destruct (ascii_dec c c'); [now apply IH|discriminate].
Qed.

Lemma contains_app (needle s rest : string) :
  contains needle s = true -> contains needle (s ++ rest)%string = true.
Proof.
  induction s as [|c s IH]; intros H.
  - simpl in H. rewrite orb_false_r in H.
    destruct needle; [|discriminate].
    destruct rest; reflexivity.
  - cbn [contains] in H. apply orb_prop in H. destruct H as [H|H].
    + change ((String c s ++ rest)%string) with (String c (s ++ rest)).
      cbn [contains].
      change (String c (s ++ rest)) with ((String c s ++ rest)%string).
      now rewrite (prefix_app _ _ rest H).
    + change ((String c s ++ rest)%string) with (String c (s ++ rest)).
      cbn [contains]. rewrite (IH H). apply orb_true_r.
Qed.

Lemma analyze_files_main_files (csv_files : list CsvFile) (an : Analysis) :
  analyze_files csv_files = inr an ->
  main_files an = filter (fun f => contains "BACI_HS" (path f)) csv_files.
Proof.
  unfold analyze_files.
  destruct (first_with "country_codes" csv_files) as [cf|]; [|discriminate].
  destruct (first_with "product_codes" csv_files) as [pf|]; [|discriminate].
  destruct (match content cf with
            | Unreadable e => _ | TradeCsv _ => _
            | CountryCsv rows => _ | ProductCsv _ => _ end) as [e|countries];
    [discriminate|].
  cbn [bind].
  destruct (match content pf with
            | Unreadable e => _ | TradeCsv _ => _
            | CountryCsv _ => _ | ProductCsv rows => _ end) as [e|products];
    [discriminate|].
  cbn [bind ret]. intros H. inversion H; subst. reflexivity.
Qed.

(** X1.  The main files are picked by looking for [BACI_HS] in the whole
    path [glob] returns.  When the input directory itself has [BACI_HS] in
    its path, every CSV file in it is taken for a main file, the two
    reference files included. *)
Theorem directory_name_makes_every_file_main (dir : string)
    (csv_files : list CsvFile) (an : Analysis) :
  contains "BACI_HS" dir = true ->
  (forall f, In f csv_files ->
             exists name, path f = (dir ++ "/" ++ name)%string) ->
  analyze_files csv_files = inr an ->
  main_files an = csv_files /\
  exists country_file product_file,
    In country_file (main_files an) /\ In product_file (main_files an) /\
    contains "country_codes" (path country_file) = true /\
    contains "product_codes" (path product_file) = true.
Proof.
  intros Hdir Hglob Han.
  assert (Hmain : main_files an = csv_files).
  { rewrite (analyze_files_main_files _ _ Han).
    apply forallb_filter_id. apply forallb_forall. intros f Hf.
    destruct (Hglob f Hf) as [name ->]. now apply contains_app. }
  split; [exact Hmain|]. rewrite Hmain.
  unfold analyze_files, first_with in Han.
  destruct (find (fun f => contains "country_codes" (path f)) csv_files)
    as [cf|] eqn:Ec; [|discriminate].
  destruct (find (fun f => contains "product_codes" (path f)) csv_files)
    as [pf|] eqn:Ep; [|discriminate].
  apply find_some in Ec. apply find_some in Ep.
  exists cf, pf. tauto.
Qed.

Lemma directory_name_makes_every_file_main_witness :
  main_files (Sample.found Further.hs_dir_files) = Further.hs_dir_files.
Proof.
  refine (proj1 (directory_name_makes_every_file_main "/BACI_HS17"
                   Further.hs_dir_files (Sample.found Further.hs_dir_files)
                   eq_refl _ eq_refl)).
  intros f [<-|[<-|[]]]; [exists "country_codes.csv"|exists "product_codes.csv"];
    reflexivity.
Defined.

(** A reference table taken for a main file makes its task raise. *)
Lemma reference_table_as_main_file (self : DataProcessor)
    (aux : AuxiliaryDfs) (st : RandomState) (file : CsvFile) :
  1 <= chunk_size self ->
  (forall rows, content file <> TradeCsv rows) ->
  (forall e, content file <> Unreadable e) ->
  process_file self aux st file = inl (KeyError "i").
Proof.
  intros Hc Ht He. unfold process_file, read_main_csv.
  destruct (Nat.ltb_spec (chunk_size self) 1); [lia|].
  destruct (content file) as [e|rows|rows|rows]; try reflexivity.
  - now contradiction (He e).
  - now contradiction (Ht rows).
Qed.

(** ** Reference files that are missing or incomplete *)

Lemma find_all_false {A : Type} (f : A -> bool) (l : list A) :
  (forall a, In a l -> f a = false) -> find f l = None.
Proof.
  induction l as [|a l IH]; intros H; [reflexivity|].
  simpl. rewrite (H a (or_introl eq_refl)). apply IH.
  intros b Hb. apply H. now right.
Qed.

(** X2.  When no CSV file has [country_codes] in its path, or none has
    [product_codes], the run raises [FileNotFoundError] before anything is
    submitted to the pool: no task runs and no per-file callback is made,
    whatever main files there are. *)
Theorem missing_reference_file_is_fatal (self : DataProcessor)
    (pcb lcb : bool) (csv_files : list CsvFile)
    (worker_rng : nat -> RandomState) (schedule : list nat) :
  (forall f, In f csv_files -> contains "country_codes" (path f) = false) \/
  (forall f, In f csv_files -> contains "product_codes" (path f) = false) ->
  let run := process_data self pcb lcb csv_files worker_rng schedule in
  outcome run =
    inl (FileNotFoundError
           "Could not find country_codes or product_codes file.") /\
  completions (trace run) = [] /\ file_callbacks (trace run) = [].
Proof.
  intros Hmiss. cbv zeta.
  assert (Han : analyze_files csv_files =
                inl (FileNotFoundError
                       "Could not find country_codes or product_codes file.")).
  { unfold analyze_files, first_with. destruct Hmiss as [H|H].
    - now rewrite (find_all_false _ _ H).
    - rewrite (find_all_false _ _ H).
      now destruct (find _ csv_files). }
  destruct (process_data_not_analyzed self pcb lcb csv_files worker_rng
              schedule _ Han) as [Ho [Hf Hc]].
  auto.
Qed.

Lemma missing_reference_file_is_fatal_witness :
  completions
    (trace (process_data (Sample.processor false 1 "csv") true true
              [Sample.countries_csv; Sample.good_csv] Sample.same_rng []))
  = [].
Proof.
  refine (proj1 (proj2 (missing_reference_file_is_fatal
                   (Sample.processor false 1 "csv") true true
                   [Sample.countries_csv; Sample.good_csv]
                   Sample.same_rng [] _))).
  right. intros f [<-|[<-|[]]]; reflexivity.
Defined.

Lemma astype_int_country_code_returns (rows : list CountryCsvRow)
    (out : list CountryRow) :
  astype_int_country_code rows = inr out ->
  map (fun r => Some (country_code r)) out = map csv_country_code rows /\
  map country_name out = map csv_country_name rows.
Proof.
  revert out. induction rows as [|r rows IH]; intros out; simpl.
  - intros H. inversion H. auto.
  - destruct (csv_country_code r) as [c|] eqn:Ec; [|discriminate].
    destruct (astype_int_country_code rows) as [e|rest]; [discriminate|].
    cbn [bind ret]. intros H. inversion H; subst.
    destruct (IH rest eq_refl) as [H1 H2]. simpl. now rewrite H1, H2.
Qed.

Lemma astype_int_country_code_raises (rows : list CountryCsvRow) :
  (exists r, In r rows /\ csv_country_code r = None) ->
  astype_int_country_code rows =
  inl (ValueError "Cannot convert non-finite values (NA or inf) to integer").
Proof.
  induction rows as [|r rows IH]; intros [r0 [Hin Hnone]]; [contradiction|].
  simpl. destruct (csv_country_code r) as [c|] eqn:Ec; [|reflexivity].
  rewrite IH; [reflexivity|].
  destruct Hin as [->|Hin]; [congruence|]. now exists r0.
Qed.

(** X3.  One row of the country file without a country code makes
    [astype(int)] raise in [analyze_files]: the run ends with that
    [ValueError] and no main file is processed. *)
Theorem missing_country_code_is_fatal (self : DataProcessor)
    (pcb lcb : bool) (csv_files : list CsvFile)
    (worker_rng : nat -> RandomState) (schedule : list nat)
    (country_file product_file : CsvFile) (rows : list CountryCsvRow) :
  first_with "country_codes" csv_files = Some country_file ->
  first_with "product_codes" csv_files = Some product_file ->
  content country_file = CountryCsv rows ->
  (exists r, In r rows /\ csv_country_code r = None) ->
  let run := process_data self pcb lcb csv_files worker_rng schedule in
  outcome run =
    inl (ValueError
           "Cannot convert non-finite values (NA or inf) to integer") /\
  completions (trace run) = [].
Proof.
  intros Hc Hp Hrows Hnone. cbv zeta.
  assert (Han : analyze_files csv_files =
                inl (ValueError
                  "Cannot convert non-finite values (NA or inf) to integer")).
  { unfold analyze_files. rewrite Hc, Hp, Hrows.
    now rewrite (astype_int_country_code_raises rows Hnone). }
  destruct (process_data_not_analyzed self pcb lcb csv_files worker_rng
              schedule _ Han) as [Ho [_ Hcm]].
  auto.
Qed.

Lemma missing_country_code_is_fatal_witness :
  completions
    (trace (process_data (Sample.processor false 1 "csv") true true
              Further.codeless_dir Sample.same_rng []))
  = [].
Proof.
  refine (proj2 (missing_country_code_is_fatal
                   (Sample.processor false 1 "csv") true true
                   Further.codeless_dir Sample.same_rng []
                   Further.codeless_csv Sample.products_csv
                   [mkCountryCsv None (Some "Nowhere") None None]
                   eq_refl eq_refl eq_refl _)).
  eexists. split; [now left|reflexivity].
Defined.

(** ** The join step on tables with repeated keys *)

Lemma merge_left_app {L R K : Type} (eqb : K -> K -> bool)
    (left_on : L -> K) (right_on : R -> K) (a b : list L) (right : list R) :
  Pandas.merge_left eqb left_on right_on (a ++ b) right =
  Pandas.merge_left eqb left_on right_on a right
  ++ Pandas.merge_left eqb left_on right_on b right.
Proof. unfold Pandas.merge_left. apply flat_map_app. Qed.

(** The join of a chunk is the join of its parts, one after the other. *)
Lemma process_chunk_app (aux : AuxiliaryDfs) (a b : list RawRow) :
  process_chunk aux (a ++ b) = process_chunk aux a ++ process_chunk aux b.
Proof.
  unfold process_chunk.
  now rewrite !merge_left_app, map_app, merge_left_app, map_app.
Qed.

Lemma flat_map_length_sum {A B : Type} (f : A -> list B) (l : list A) :
  length (flat_map f l) = list_sum (map (fun a => length (f a)) l).
Proof.
  induction l as [|a l IH]; [reflexivity|].
  simpl. now rewrite length_app, IH.
Qed.

Lemma merge_left_length {L R K : Type} (eqb : K -> K -> bool)
    (left_on : L -> K) (right_on : R -> K) (left : list L) (right : list R) :
  length (Pandas.merge_left eqb left_on right_on left right) =
  list_sum (map (fun l => copies (matches eqb right_on (left_on l) right))
                left).
Proof.
  unfold Pandas.merge_left. rewrite flat_map_length_sum. f_equal.
  apply map_ext. intros l. unfold copies, matches.
  destruct (filter _ right) as [|r ms]; [reflexivity|].
  rewrite length_map. simpl. lia.
Qed.

Lemma list_sum_const {A : Type} (f : A -> nat) (c : nat) (l : list A) :
  (forall a, In a l -> f a = c) -> list_sum (map f l) = length l * c.
Proof.
  induction l as [|a l IH]; intros H; [reflexivity|].
  change (list_sum (map f (a :: l))) with (f a + list_sum (map f l)).
  rewrite (H a (or_introl eq_refl)), IH; [simpl; lia|].
  intros b Hb. apply H. now right.
Qed.

Lemma merge_left_one_key {L R K : Type} (eqb : K -> K -> bool)
    (left_on : L -> K) (right_on : R -> K) (left : list L) (right : list R)
    (x : K) :
  (forall l, In l left -> left_on l = x) ->
  length (Pandas.merge_left eqb left_on right_on left right) =
  length left * copies (matches eqb right_on x right).
Proof.
  intros H. rewrite merge_left_length. apply list_sum_const.
  intros l Hl. now rewrite (H l Hl).
Qed.

Lemma process_chunk_one_row (aux : AuxiliaryDfs) (raw : RawRow) :
  length (process_chunk aux [raw]) = fan_out aux raw.
Proof.
  unfold process_chunk, fan_out. rewrite length_map.
  rewrite (merge_left_one_key String.eqb snd code _ _
             (Pandas.astype_str (raw_k raw))).
  - rewrite length_map.
    rewrite (merge_left_one_key Z.eqb _ country_code _ _ (raw_j raw)).
    + rewrite (merge_left_one_key Z.eqb raw_i country_code _ _ (raw_i raw)).
      * simpl. lia.
      * intros l [<-|[]]. reflexivity.
    + intros [l m] Hl. apply merge_left_from_left in Hl.
      destruct Hl as [<-|[]]. reflexivity.
  - intros [[[l m1] m2] ks] Hl. apply in_map_iff in Hl.
    destruct Hl as [[[l' m1'] m2'] [Heq Hl]]. inversion Heq; subst.
    apply merge_left_from_left in Hl. apply merge_left_from_left in Hl.
    destruct Hl as [<-|[]]. reflexivity.
Qed.

(** X4.  Whatever the reference tables, the join step makes of each trade
    row one row for every combination of an exporter row, an importer row
    and a product row with its keys, taking a key without rows as one
    combination: the row count is the sum of these products, so no row is
    ever dropped, and rows are repeated exactly where a reference key is. *)
Theorem process_chunk_fan_out (aux : AuxiliaryDfs) (chunk : list RawRow) :
  length (process_chunk aux chunk) = list_sum (map (fan_out aux) chunk) /\
  length chunk <= length (process_chunk aux chunk).
Proof.
  assert (H : length (process_chunk aux chunk) =
              list_sum (map (fan_out aux) chunk)).
  { induction chunk as [|raw chunk IH]; [reflexivity|].
    change (raw :: chunk) with ([raw] ++ chunk).
    rewrite process_chunk_app, length_app, process_chunk_one_row, IH.
    reflexivity. }
  (* every factor is at least one *)
  split; [exact H|]. rewrite H. clear H.
  induction chunk as [|raw chunk IH]; [reflexivity|].
  change (list_sum (map (fan_out aux) (raw :: chunk)))
    with (fan_out aux raw + list_sum (map (fan_out aux) chunk)).
  cbn [length].
  assert (1 <= fan_out aux raw).
  { unfold fan_out, copies.
    pose proof (Nat.le_max_l 1 (matches Z.eqb country_code (raw_i raw)
                                  (country_codes aux))).
    pose proof (Nat.le_max_l 1 (matches Z.eqb country_code (raw_j raw)
                                  (country_codes aux))).
    pose proof (Nat.le_max_l 1 (matches String.eqb code
                                  (Pandas.astype_str (raw_k raw))
                                  (product_codes aux))).
    nia. }
  lia.
Qed.

(** ** A main file, chunk by chunk *)

Lemma fillna_qv_app (a b : list RawRow) :
  fillna_qv (a ++ b) = fillna_qv a ++ fillna_qv b.
Proof. unfold fillna_qv. apply map_app. Qed.

Lemma process_chunks_unsampled (self : DataProcessor) (aux : AuxiliaryDfs)
    (st : RandomState) (chunks : list (list RawRow))
    (processed : list DataFrame) :
  use_sample self = false ->
  process_chunks self aux st chunks processed =
  inr (processed ++ map (fun c => process_chunk aux (fillna_qv c)) chunks).
Proof.
  intros Hoff. revert processed.
  induction chunks as [|c chunks IH]; intros processed; simpl.
  - now rewrite app_nil_r.
  - unfold process_one_chunk, stratified_sample. rewrite Hoff.
    cbn [bind ret]. rewrite IH, <- app_assoc. reflexivity.
Qed.

Lemma concat_process_chunks (aux : AuxiliaryDfs)
    (chunks : list (list RawRow)) :
  List.concat (map (fun c => process_chunk aux (fillna_qv c)) chunks) =
  process_chunk aux (fillna_qv (List.concat chunks)).
Proof.
  induction chunks as [|c chunks IH]; [reflexivity|].
  simpl. now rewrite IH, fillna_qv_app, process_chunk_app.
Qed.

Lemma read_chunks_not_nil {A : Type} (chunksize : nat) (rows : list A) :
  read_chunks chunksize rows <> [].
Proof.
  unfold read_chunks. destruct rows as [|a rows]; [discriminate|].
  simpl. discriminate.
Qed.

Lemma process_file_of_table (self : DataProcessor) (aux : AuxiliaryDfs)
    (st : RandomState) (file : CsvFile) (rows : list RawRow) :
  use_sample self = false -> 1 <= chunk_size self ->
  content file = TradeCsv rows ->
  process_file self aux st file = inr (process_chunk aux (fillna_qv rows)).
Proof.
  intros Hoff Hc Hrows. unfold process_file, read_main_csv.
  destruct (Nat.ltb_spec (chunk_size self) 1); [lia|].
  rewrite Hrows. cbn [bind ret].
  rewrite (process_chunks_unsampled self aux st _ [] Hoff). cbn [bind app].
  pose proof (read_chunks_not_nil (chunk_size self) rows) as Hne.
  destruct (read_chunks_concat (chunk_size self) rows Hc) as [Hcat _].
  destruct (read_chunks (chunk_size self) rows) as [|c chunks] eqn:E;
    [contradiction|].
  unfold Pandas.concat. cbn [map]. unfold ret. f_equal.
  change (process_chunk aux (fillna_qv c)
          :: map (fun c0 => process_chunk aux (fillna_qv c0)) chunks)
    with (map (fun c0 => process_chunk aux (fillna_qv c0)) (c :: chunks)).
  now rewrite concat_process_chunks, Hcat.
Qed.

(** X5.  With sampling off the chunk size does not show in what
    [process_file] returns: for every chunk size of at least one row it is
    the join of the whole table after [fillna], as if read in one piece; a
    table without rows gives a frame without rows, not an error. *)
Theorem process_file_unsampled (self : DataProcessor) (aux : AuxiliaryDfs)
    (st : RandomState) (file : CsvFile) (rows : list RawRow) :
  use_sample self = false -> 1 <= chunk_size self ->
  content file = TradeCsv rows ->
  process_file self aux st file = inr (process_chunk aux (fillna_qv rows)) /\
  (rows = [] -> process_file self aux st file = inr []).
Proof.
  intros Hoff Hc Hrows.
  pose proof (process_file_of_table self aux st file rows Hoff Hc Hrows) as H.
  split; [exact H|]. intros ->. exact H.
Qed.

Lemma process_file_unsampled_witness :
  process_file (Sample.processor false 1 "csv") Sample.aux Sample.zeros
    Sample.good_csv =
  inr (process_chunk Sample.aux (fillna_qv Sample.trade_rows)).
Proof.
  apply (proj1 (process_file_unsampled (Sample.processor false 1 "csv")
                  Sample.aux Sample.zeros Sample.good_csv Sample.trade_rows
                  eq_refl ltac:(simpl; lia) eq_refl)).
Defined.

Lemma enumerate_map_ext {A B : Type} (F : nat -> A -> B) (G : A -> B)
    (l : list A) :
  (forall n a, In a l -> F n a = G a) ->
  map (fun '(n, a) => F n a) (enumerate l) = map G l.
Proof.
  unfold enumerate. generalize 0.
  induction l as [|a l IH]; intros n H; [reflexivity|].
  simpl. rewrite (H n a (or_introl eq_refl)). f_equal.
  apply IH. intros m b Hb. apply H. now right.
Qed.

(** X6.  A processor with chunk size 0 processes nothing: [read_csv]
    refuses the chunk size in every task, and a run that gets past
    [analyze_files] raises [No data was successfully processed], whatever
    is in the main files. *)
Theorem chunk_size_zero_processes_nothing (self : DataProcessor)
    (pcb lcb : bool) (csv_files : list CsvFile)
    (worker_rng : nat -> RandomState) (schedule : list nat) (an : Analysis) :
  chunk_size self = 0 ->
  analyze_files csv_files = inr an ->
  Forall (fun fut =>
            fut = inl (ValueError "'chunksize' must be an integer >=1"))
         (submit_all self an worker_rng) /\
  outcome (process_data self pcb lcb csv_files worker_rng schedule) =
    inl NoDataProcessed.
Proof.
  intros Hc Han.
  assert (Hall : Forall (fun fut =>
              fut = inl (ValueError "'chunksize' must be an integer >=1"))
            (submit_all self an worker_rng)).
  { unfold submit_all. apply Forall_forall. intros fut Hin.
    apply in_map_iff in Hin. destruct Hin as [[n file] [<- _]].
    unfold process_file, read_main_csv. now rewrite Hc. }
  split; [exact Hall|].
  destruct (process_data_analyzed self pcb lcb csv_files worker_rng
              schedule an Han) as [Ho _].
  rewrite Ho. apply finish_no_data. apply returned_nil_iff.
  eapply Forall_impl; [|exact Hall]. intros fut ->. reflexivity.
Qed.

Lemma chunk_size_zero_processes_nothing_witness :
  outcome (process_data
             (mkProcessor "/data" "/out/merged.dat" false 1 2 "csv" 0)
             true true Sample.two_good Sample.same_rng []) =
  inl NoDataProcessed.
Proof.
  apply (proj2 (chunk_size_zero_processes_nothing
                  (mkProcessor "/data" "/out/merged.dat" false 1 2 "csv" 0)
                  true true Sample.two_good Sample.same_rng []
                  (Sample.found [Sample.good_csv; Sample.other_csv])
                  eq_refl eq_refl)).
Defined.

(** ** Whole runs *)

Lemma submit_all_unsampled (self : DataProcessor) (an : Analysis)
    (worker_rng : nat -> RandomState) :
  use_sample self = false -> 1 <= chunk_size self ->
  submit_all self an worker_rng =
  map (fun file =>
         match content file with
         | TradeCsv rows =>
             inr (process_chunk (auxiliary_dfs an) (fillna_qv rows))
         | Unreadable e => inl e
         | _ => inl (KeyError "i")
         end) (main_files an).
Proof.
  intros Hoff Hc. unfold submit_all.
  apply (enumerate_map_ext
           (fun n file => process_file self (auxiliary_dfs an)
                            (worker_rng n) file)).
  intros n file _. destruct (content file) as [e|rows|rows|rows] eqn:E.
  - unfold process_file, read_main_csv.
    destruct (Nat.ltb_spec (chunk_size self) 1); [lia|]. now rewrite E.
  - now apply process_file_of_table.
  - apply reference_table_as_main_file; [exact Hc| |]; intros ?; congruence.
  - apply reference_table_as_main_file; [exact Hc| |]; intros ?; congruence.
Qed.

(** X7.  With sampling off, what a run writes is the join of every row of
    every main file that can be read, file after file in the order found
    and row after row in file order; a file that cannot be read, or is no
    table of trade rows, adds nothing and takes nothing away. *)
Theorem unsampled_run_keeps_every_row (self : DataProcessor) (pcb lcb : bool)
    (csv_files : list CsvFile) (worker_rng : nat -> RandomState)
    (schedule : list nat) (an : Analysis) (out : Output) :
  use_sample self = false -> 1 <= chunk_size self ->
  analyze_files csv_files = inr an ->
  outcome (process_data self pcb lcb csv_files worker_rng schedule) = inr out ->
  final_data out = flat_map (rows_of_file (auxiliary_dfs an)) (main_files an).
Proof.
  intros Hoff Hc Han Hout.
  destruct (process_data_analyzed self pcb lcb csv_files worker_rng
              schedule an Han) as [Ho _].
  rewrite Ho in Hout. apply finish_returns in Hout.
  destruct Hout as [-> _].
  rewrite (submit_all_unsampled self an worker_rng Hoff Hc).
  induction (main_files an) as [|file files IH]; [reflexivity|].
  cbn [map flat_map]. unfold rows_of_file at 1.
  destruct (content file); cbn [returned List.concat app]; now rewrite IH.
Qed.

Lemma unsampled_run_keeps_every_row_witness :
  exists out,
    outcome (process_data (Sample.processor false 1 "csv") true true
               Sample.bad_then_good Sample.same_rng []) = inr out /\
    final_data out = process_chunk Sample.aux (fillna_qv Sample.trade_rows).
Proof.
  destruct (outcome (process_data (Sample.processor false 1 "csv") true true
                       Sample.bad_then_good Sample.same_rng []))
    as [e|out] eqn:E; [discriminate E|].
  exists out. split; [reflexivity|].
  etransitivity.
  - apply (unsampled_run_keeps_every_row
             (Sample.processor false 1 "csv") true true
             Sample.bad_then_good Sample.same_rng []
             (Sample.found [Sample.corrupt_csv; Sample.good_csv]) out
             eq_refl); [simpl; lia|reflexivity|exact E].
  - reflexivity.
Defined.

(** X8.  The row count in the metadata is the number of rows written, and
    that is the sum of the row counts of the frames of the tasks that
    returned: putting the per-file results together loses and adds no
    row. *)
Theorem total_rows_is_sum_of_files (self : DataProcessor) (pcb lcb : bool)
    (csv_files : list CsvFile) (worker_rng : nat -> RandomState)
    (schedule : list nat) (out : Output) :
  outcome (process_data self pcb lcb csv_files worker_rng schedule) = inr out ->
  total_rows_processed (metadata out) = length (final_data out) /\
  length (final_data out) =
    list_sum (map (@length EnrichedRow)
                  (returned (futures_of self csv_files worker_rng))).
Proof.
  unfold futures_of. intros Hout.
  destruct (analyze_files csv_files) as [e|an] eqn:Han.
  - destruct (process_data_not_analyzed self pcb lcb csv_files worker_rng
                schedule e Han) as [H _].
    rewrite H in Hout. discriminate.
  - destruct (process_data_analyzed self pcb lcb csv_files worker_rng
                schedule an Han) as [H _].
    rewrite H in Hout. apply finish_returns in Hout.
    destruct Hout as [Hf [Hr _]]. rewrite Hr, Hf. split; [reflexivity|].
    apply length_concat.
Qed.

Lemma total_rows_is_sum_of_files_witness :
  exists out,
    outcome (process_data (Sample.processor false 1 "csv") true true
               Sample.two_good Sample.same_rng [1; 0]) = inr out /\
    total_rows_processed (metadata out) = length (final_data out).
Proof.
  destruct (outcome (process_data (Sample.processor false 1 "csv") true true
                       Sample.two_good Sample.same_rng [1; 0]))
    as [e|out] eqn:E; [discriminate E|].
  exists out. split; [reflexivity|].
  exact (proj1 (total_rows_is_sum_of_files
                  (Sample.processor false 1 "csv") true true
                  Sample.two_good Sample.same_rng [1; 0] out E)).
Defined.

(** *** The percentages reported *)

Lemma progress_values_app (tr1 tr2 : list Event) :
  progress_values (tr1 ++ tr2) = progress_values tr1 ++ progress_values tr2.
Proof.
  induction tr1 as [|e tr1 IH]; [reflexivity|].
  destruct e; simpl; now rewrite IH.
Qed.

Lemma progress_values_file_callbacks (tr : list Event) :
  progress_values tr = progress_values (file_callbacks tr).
Proof.
  induction tr as [|e tr IH]; [reflexivity|].
  destruct e as [n|line|p|text]; simpl; try exact IH.
  - now rewrite IH.
  - destruct text; simpl; exact IH.
Qed.

Lemma progress_of_le (a b total : nat) :
  a <= b -> progress_of a total <= progress_of b total.
Proof.
  intros H. unfold progress_of. destruct total as [|total]; [reflexivity|].
  apply Nat.Div0.div_le_mono. lia.
Qed.

Lemma progress_of_le_100 (idx total : nat) :
  idx < total -> progress_of idx total <= 100.
Proof.
  intros H. unfold progress_of.
  apply Nat.Div0.div_le_upper_bound. lia.
Qed.

Lemma progress_values_from (pcb lcb : bool) (total start : nat)
    (futures : list (Result DataFrame)) (p : nat) :
  In p (progress_values
          (flat_map (callbacks_for pcb lcb total)
                    (combine (seq start (length futures)) futures))) ->
  exists idx, start <= idx < start + length futures /\
              p = progress_of idx total.
Proof.
  revert start. induction futures as [|fut futures IH]; intros start;
    [intros []|].
  cbn [length seq combine flat_map]. rewrite progress_values_app.
  intros H. apply in_app_or in H. destruct H as [H|H].
  - exists start. split; [lia|].
    unfold callbacks_for in H. cbn [fst snd] in H.
    destruct fut as [e|df]; [contradiction|].
    destruct pcb, lcb; simpl in H; intuition.
  - destruct (IH (S start) H) as [idx [Hi Hp]]. exists idx. split; [lia|].
    exact Hp.
Qed.

Lemma progress_values_sorted (pcb lcb : bool) (total start : nat)
    (futures : list (Result DataFrame)) :
  StronglySorted le
    (progress_values
       (flat_map (callbacks_for pcb lcb total)
                 (combine (seq start (length futures)) futures))).
Proof.
  revert start. induction futures as [|fut futures IH]; intros start;
    [constructor|].
  cbn [length seq combine flat_map]. rewrite progress_values_app.
  assert (Hhead : progress_values
                    (callbacks_for pcb lcb total (start, fut)) = [] \/
                  progress_values
                    (callbacks_for pcb lcb total (start, fut)) =
                  [progress_of start total]).
  { unfold callbacks_for. cbn [fst snd]. destruct fut as [e|df]; [now left|].
    destruct pcb, lcb; simpl; auto. }
  destruct Hhead as [-> | ->]; [exact (IH (S start))|].
  cbn [app]. constructor; [exact (IH (S start))|].
  apply Forall_forall. intros p Hp.
  apply progress_values_from in Hp. destruct Hp as [idx [Hi ->]].
  apply progress_of_le. lia.
Qed.

(** X9.  The percentages a run passes to the progress callback never go
    down and never exceed 100. *)
Theorem progress_never_goes_down (self : DataProcessor) (pcb lcb : bool)
    (csv_files : list CsvFile) (worker_rng : nat -> RandomState)
    (schedule : list nat) :
  let run := process_data self pcb lcb csv_files worker_rng schedule in
  StronglySorted le (progress_values (trace run)) /\
  Forall (fun p => p <= 100) (progress_values (trace run)).
Proof.
  cbv zeta. rewrite progress_values_file_callbacks.
  pose proof (process_data_file_callbacks self pcb lcb csv_files worker_rng
                schedule) as Hcb. cbv zeta in Hcb. rewrite Hcb.
  unfold enumerate. split; [apply progress_values_sorted|].
  apply Forall_forall. intros p Hp.
  apply progress_values_from in Hp. destruct Hp as [idx [Hi ->]].
  apply progress_of_le_100. lia.
Qed.

(** *** How the caller learns the outcome *)

Lemma collect_loop_events (pcb lcb : bool) (total : nat)
    (items : list (nat * Result DataFrame)) (c : Collector) :
  Forall loop_event (events c) ->
  Forall loop_event
         (events (fold_left (collect_step pcb lcb total) items c)).
Proof.
  revert c. induction items as [|[idx fut] items IH]; intros c Hc;
    cbn [fold_left]; [exact Hc|].
  apply IH. destruct (collect_step_spec pcb lcb total c idx fut)
    as [ws [_ [_ He]]].
  rewrite He. apply Forall_app. split; [exact Hc|].
  apply Forall_app. split.
  - apply Forall_forall. intros ev Hev. apply in_map_iff in Hev.
    destruct Hev as [w [<- _]]. exact I.
  - destruct fut as [e|df]; [repeat constructor|].
    unfold callbacks_for. cbn [fst snd].
    destruct pcb, lcb; repeat constructor.
Qed.

(** X10.  A caller that passes a log callback is always told how the run
    ended: the callback receives the error text of an exception exactly
    when the run raises that exception, and the text that processing is
    complete exactly when the run returns. *)
Theorem log_callback_tells_the_outcome (self : DataProcessor) (pcb : bool)
    (csv_files : list CsvFile) (worker_rng : nat -> RandomState)
    (schedule : list nat) :
  let run := process_data self pcb true csv_files worker_rng schedule in
  (forall e, In (LogCallback (ErrorText e)) (trace run) <->
             outcome run = inl e) /\
  (In (LogCallback ProcessingComplete) (trace run) <->
   succeeded (outcome run) = true).
Proof.
  cbv zeta. unfold process_data.
  assert (Hloop : forall an ev,
            In ev (events (collect pcb true (length (main_files an))
                             (submit_all self an worker_rng) schedule)) ->
            loop_event ev).
  { intros an ev. apply Forall_forall. unfold collect.
    apply collect_loop_events. constructor. }
  destruct (analyze_files csv_files) as [e0|an].
  - cbn [trace outcome succeeded]. split.
    + intros e. split.
      * intros [H|[H|[H|[]]]]; try discriminate. now inversion H.
      * intros H. inversion H; subst. right. right. now left.
    + split; [|discriminate].
      intros [H|[H|[H|[]]]]; discriminate.
  - destruct (finish self an _) as [e0|out]; cbn [trace outcome succeeded].
    + split.
      * intros e. split.
        -- intros H. apply in_app_or in H. destruct H as [H|H].
           ++ apply Hloop in H. contradiction.
           ++ destruct H as [H|[H|[]]]; [discriminate|]. now inversion H.
        -- intros H. inversion H; subst. apply in_or_app. right.
           right. now left.
      * split; [|discriminate]. intros H. apply in_app_or in H.
        destruct H as [H|H]; [apply Hloop in H; contradiction|].
        destruct H as [H|[H|[]]]; discriminate.
    + split.
      * intros e. split; [|discriminate].
        intros H. apply in_app_or in H. destruct H as [H|H].
        -- apply Hloop in H. contradiction.
        -- destruct H as [H|[H|[H|[]]]]; discriminate.
      * split; [reflexivity|]. intros _. apply in_or_app. right. now left.
Qed.

(** ** The sampler at the ends of its range *)

Lemma sorted_keys_not_nil (df : DataFrame) :
  df <> [] -> Pandas.sorted_keys key_of df <> [].
Proof.
  destruct df as [|r df]; [contradiction|]. intros _ H.
  assert (Hin : In (key_of r) (Pandas.sorted_keys key_of (r :: df))).
  { apply sorted_keys_In. now left. }
  rewrite H in Hin. contradiction.
Qed.

Lemma group_not_empty (df : DataFrame) (key : Pandas.Key) :
  In key (Pandas.sorted_keys key_of df) ->
  0 < length (Pandas.group_labels key_of df key).
Proof.
  intros H. apply sorted_keys_In in H. apply in_map_iff in H.
  destruct H as [r [Hk Hr]]. apply In_nth_error in Hr.
  destruct Hr as [p Hp].
  assert (Hin : In p (Pandas.group_labels key_of df key)).
  { apply group_labels_In. now exists r. }
  destruct (Pandas.group_labels key_of df key); [contradiction|].
  simpl. lia.
Qed.

(** X11.  A sample fraction above 1 is refused: with sampling enabled the
    sampler raises pandas' [ValueError] about upsampling on every batch
    that has a row. *)
Theorem fraction_above_one_raises (self : DataProcessor) (st : RandomState)
    (df : DataFrame) :
  use_sample self = true -> (1 < sample_frac self)%Q -> df <> [] ->
  stratified_sample self st df =
  inl (ValueError
    "Replace has to be set to `True` when upsampling the population `frac` > 1.").
Proof.
  intros Hon Hbig Hne. unfold stratified_sample. rewrite Hon.
  unfold stratified_labels, Pandas.groupby_apply, Pandas.groupby.
  pose proof (sorted_keys_not_nil df Hne) as Hkeys.
  pose proof (group_not_empty df) as Hgroup.
  destruct (Pandas.sorted_keys key_of df) as [|key keys]; [contradiction|].
  specialize (Hgroup key (or_introl eq_refl)).
  cbn [map Pandas.apply_groupwise]. unfold sample_group at 1.
  destruct (Nat.ltb_spec 0 (length (Pandas.group_labels key_of df key)));
    [|lia].
  unfold Pandas.sample, Pandas.Qltb.
  destruct (Qle_bool (sample_frac self) 1) eqn:E; [|reflexivity].
  apply Qle_bool_iff in E. exfalso. now apply (Qlt_not_le _ _ Hbig).
Qed.

Lemma fraction_above_one_raises_witness :
  stratified_sample (Sample.processor true (3#2) "csv") Sample.zeros
    Sample.pair =
  inl (ValueError
    "Replace has to be set to `True` when upsampling the population `frac` > 1.").
Proof.
  apply (fraction_above_one_raises (Sample.processor true (3#2) "csv")
           Sample.zeros Sample.pair eq_refl eq_refl).
  discriminate.
Defined.

Lemma sample_count_one (frac : Q) (n : nat) :
  (frac == 1)%Q -> sample_count frac n = n.
Proof.
  destruct frac as [a b]. unfold Qeq. cbn [Qnum Qden]. intros H.
  assert (Ha : a = Z.pos b) by lia. subst a.
  unfold sample_count, Pandas.round, Qmult, inject_Z. cbn [Qnum Qden].
  rewrite Pos.mul_1_r. cbv zeta.
  rewrite (Z.mul_comm (Z.pos b)), Z.mod_mul, Z.div_mul by discriminate.
  destruct (Z.ltb_spec (2 * 0) (Z.pos b)); lia.
Qed.

Lemma drawn_whole (frac : Q) (x res : list nat) :
  (frac == 1)%Q -> drawn_from frac x res -> Permutation res x.
Proof.
  intros H1 [Hnd [Hincl Hlen]]. rewrite (sample_count_one _ _ H1) in Hlen.
  apply NoDup_Permutation_bis; [exact Hnd|lia|exact Hincl].
Qed.

Lemma concat_drawn_whole (frac : Q) (groups values : list (list nat)) :
  (frac == 1)%Q -> Forall2 (drawn_from frac) groups values ->
  Permutation (List.concat values) (List.concat groups).
Proof.
  intros H1. induction 1 as [|x res groups values Hd _ IH]; [constructor|].
  simpl. apply Permutation_app; [|exact IH]. now apply (drawn_whole frac).
Qed.

(** The groups of a frame hold every label of the frame. *)
Lemma groups_cover (df : DataFrame) (p : nat) :
  p < length df ->
  In p (List.concat (Pandas.groupby key_of df)).
Proof.
  intros Hp. destruct (nth_error df p) as [r|] eqn:E;
    [|apply nth_error_None in E; lia].
  apply in_concat. exists (Pandas.group_labels key_of df (key_of r)). split.
  - unfold Pandas.groupby. apply in_map. apply sorted_keys_In.
    apply in_map. now apply nth_error_In in E.
  - apply group_labels_In. now exists r.
Qed.

(** X12.  With sampling enabled and fraction 1 the sampler returns every
    row of the batch exactly once: its output is a rearrangement of its
    input, nothing lost and nothing repeated. *)
Theorem fraction_one_returns_every_row (self : DataProcessor)
    (st : RandomState) (df : DataFrame) :
  use_sample self = true -> (sample_frac self == 1)%Q ->
  exists out st',
    stratified_sample self st df = inr (out, st') /\ Permutation out df.
Proof.
  intros Hon H1.
  assert (H0 : (0 <= sample_frac self)%Q) by (rewrite H1; discriminate).
  assert (Hle : (sample_frac self <= 1)%Q) by (rewrite H1; discriminate).
  unfold stratified_sample. rewrite Hon.
  unfold stratified_labels, Pandas.groupby_apply.
  pose proof (groups_cover df) as Hcover. unfold Pandas.groupby in *.
  set (keys := Pandas.sorted_keys key_of df) in *.
  assert (Hkeys : NoDup keys) by apply sorted_keys_NoDup.
  destruct (apply_groupwise_returns (sample_group self)
              (drawn_from (sample_frac self))
              (map (Pandas.group_labels key_of df) keys)) with (st := st)
    as [values [st' [Hv HF]]].
  { intros st0 x Hx. apply in_map_iff in Hx. destruct Hx as [key [<- _]].
    apply sample_group_returns; auto. apply group_labels_NoDup. }
  rewrite Hv. cbn [bind ret].
  destruct (Pandas.indexed_same _ values).
  - exists (Pandas.take df (seq 0 (length df))), st'.
    split; [reflexivity|]. now rewrite take_all.
  - exists (Pandas.take df (List.concat values)), st'.
    split; [reflexivity|].
    rewrite <- (take_all _ df) at 2. unfold Pandas.take.
    apply Permutation_flat_map.
    destruct (concat_drawn_NoDup (sample_frac self) df keys values Hkeys HF)
      as [Hnd Hin].
    apply NoDup_Permutation; [exact Hnd|apply seq_NoDup|].
    intros p. rewrite in_seq. split.
    + intros Hp. apply Hin in Hp. destruct Hp as [key [_ Hp]].
      apply group_labels_In in Hp. destruct Hp as [r [Hr _]].
      assert (p < length df) by (apply nth_error_Some; congruence). lia.
    + intros [_ Hp]. simpl in Hp.
      apply (Permutation_in p
               (Permutation_sym (concat_drawn_whole _ _ _ H1 HF))).
      now apply Hcover.
Qed.

Lemma fraction_one_returns_every_row_witness :
  exists out st',
    stratified_sample (Sample.processor true 1 "csv") Sample.ones
      Sample.batch = inr (out, st') /\
    Permutation out Sample.batch.
Proof.
  apply (fraction_one_returns_every_row (Sample.processor true 1 "csv")
           Sample.ones Sample.batch eq_refl).
  reflexivity.
Defined.

(** ** The summary *)

Lemma nodup_length_app_l (a b : list Z) :
  length (nodup Z.eq_dec a) <= length (nodup Z.eq_dec (a ++ b)).
Proof.
  apply NoDup_incl_length; [apply NoDup_nodup|].
  intros x Hx. apply nodup_In. apply nodup_In in Hx.
  apply in_or_app. now left.
Qed.

Lemma nodup_length_app_r (a b : list Z) :
  length (nodup Z.eq_dec b) <= length (nodup Z.eq_dec (a ++ b)).
Proof.
  apply NoDup_incl_length; [apply NoDup_nodup|].
  intros x Hx. apply nodup_In. apply nodup_In in Hx.
  apply in_or_app. now right.
Qed.

Lemma filter_length_zero {A : Type} (f : A -> bool) (l : list A) :
  length (filter f l) = 0 <-> (forall a, In a l -> f a = false).
Proof.
  split.
  - intros H a Ha. destruct (f a) eqn:E; [|reflexivity].
    assert (Hin : In a (filter f l)) by (apply filter_In; auto).
    destruct (filter f l); [contradiction|discriminate].
  - intros H. now rewrite filter_none.
Qed.

(** X13.  The figure [generate_summary] reports as [Unique Countries] lies
    between the number of distinct countries in the data and twice that
    number, and it is that number exactly when no country is both an
    exporter and an importer. *)
Theorem unique_countries_range (df : DataFrame) :
  distinct_in_union df <= unique_countries (generate_summary df) /\
  unique_countries (generate_summary df) <= 2 * distinct_in_union df /\
  (unique_countries (generate_summary df) = distinct_in_union df <->
   forall c, In c (map i df) -> ~ In c (map j df)).
Proof.
  pose proof (nodup_app_length (map i df) (map j df)) as Hsum.
  pose proof (nodup_length_app_l (map i df) (map j df)) as Hl.
  pose proof (nodup_length_app_r (map i df) (map j df)) as Hr.
  unfold generate_summary, distinct_in_union, Pandas.nunique.
  cbn [unique_countries].
  split; [lia|]. split; [lia|]. split.
  - intros Heq c Hi Hj.
    assert (H0 : length (filter (fun x => if in_dec Z.eq_dec x (map j df)
                                          then true else false)
                                (nodup Z.eq_dec (map i df))) = 0) by lia.
    apply filter_length_zero with (a := c) in H0; [|now apply nodup_In].
    destruct (in_dec Z.eq_dec c (map j df)); [discriminate|contradiction].
  - intros Hno.
    assert (H0 : length (filter (fun x => if in_dec Z.eq_dec x (map j df)
                                          then true else false)
                                (nodup Z.eq_dec (map i df))) = 0).
    { apply filter_length_zero. intros c Hc. apply nodup_In in Hc.
      destruct (in_dec Z.eq_dec c (map j df)) as [Hj|]; [|reflexivity].
      now contradiction (Hno c Hc). }
    lia.
Qed.

(** *** The time series *)













(** ** The files written, and reading them back *)

Lemma string_length_app (a b : string) :
  String.length (a ++ b) = String.length a + String.length b.
Proof. induction a as [|c a IH]; simpl; [reflexivity|now rewrite IH]. Qed.

Lemma substring_skip (a b : string) (m : nat) :
  substring (String.length a) m (a ++ b) = substring 0 m b.
Proof. induction a as [|c a IH]; simpl; [reflexivity|exact IH]. Qed.

Lemma substring_whole (b : string) : substring 0 (String.length b) b = b.
Proof. induction b as [|c b IH]; simpl; [reflexivity|now rewrite IH]. Qed.

(** The test [endswith] looks at the end of the string alone. *)
Lemma endswith_app (a b suffix : string) :
  String.length suffix = String.length b ->
  Utils.endswith (a ++ b) suffix = String.eqb b suffix.
Proof.
  intros Hlen. unfold Utils.endswith. rewrite string_length_app, Hlen.
  replace (String.length a + String.length b - String.length b)
    with (String.length a) by lia.
  rewrite substring_skip, substring_whole.
  destruct (Nat.leb_spec (String.length b)
                         (String.length a + String.length b)); [|lia].
  reflexivity.
Qed.

(** A string whose last character differs from that of the suffix does
    not end with it. *)
Lemma endswith_false_by_last (a b suffix : string) (x y : ascii) :
  get (String.length b - 1) b = Some x ->
  get (String.length suffix - 1) suffix = Some y ->
  0 < String.length b -> 0 < String.length suffix -> x <> y ->
  Utils.endswith (a ++ b) suffix = false.
Proof.
  intros Hb Hs Hlb Hls Hne.
  destruct (Utils.endswith (a ++ b) suffix) eqn:E; [|reflexivity].
  exfalso. unfold Utils.endswith in E. apply andb_prop in E.
  destruct E as [Hle Heq]. apply Nat.leb_le in Hle.
  apply String.eqb_eq in Heq. rewrite string_length_app in *.
  rewrite <- Heq in Hs at 2.
  rewrite substring_correct1 in Hs by lia.
  replace (String.length suffix - 1
           + (String.length a + String.length b - String.length suffix))
    with (String.length b - 1 + String.length a) in Hs by lia.
  rewrite <- append_correct2 in Hs. congruence.
Qed.

(** X15.  Of the four kinds of data file [save_data] writes, [read_file]
    reads back the CSV and the parquet file and refuses the feather and the
    HDF5 file, whatever the output name; the summary file it takes for a
    CSV file. *)
Theorem read_file_reads_back (base_name : string) :
  Utils.read_file (data_file base_name Csv) = inr Utils.ReadCsv /\
  Utils.read_file (data_file base_name Parquet) = inr Utils.ReadParquet /\
  Utils.read_file (data_file base_name Feather) =
    inl (ValueError
           ("Unsupported file format: " ++ data_file base_name Feather)) /\
  Utils.read_file (data_file base_name Hdf5) =
    inl (ValueError
           ("Unsupported file format: " ++ data_file base_name Hdf5)) /\
  Utils.read_file (summary_file base_name) = inr Utils.ReadCsv.
Proof.
  assert (Hdiff : forall x y : ascii,
            Ascii.eqb x y = false -> x <> y)
    by (intros x y H ->; now rewrite Ascii.eqb_refl in H).
  unfold Utils.read_file, data_file, summary_file.
  repeat split.
  - now rewrite (endswith_app base_name ".csv" ".csv").
  - rewrite (endswith_false_by_last base_name ".parquet" ".csv" "t" "v")
      by (reflexivity || (simpl; lia) || now apply Hdiff).
    now rewrite (endswith_app base_name ".parquet" ".parquet").
  - rewrite (endswith_false_by_last base_name ".feather" ".csv" "r" "v")
      by (reflexivity || (simpl; lia) || now apply Hdiff).
    rewrite (endswith_false_by_last base_name ".feather" ".parquet" "r" "t")
      by (reflexivity || (simpl; lia) || now apply Hdiff).
    reflexivity.
  - rewrite (endswith_false_by_last base_name ".h5" ".csv" "5" "v")
      by (reflexivity || (simpl; lia) || now apply Hdiff).
    rewrite (endswith_false_by_last base_name ".h5" ".parquet" "5" "t")
      by (reflexivity || (simpl; lia) || now apply Hdiff).
    reflexivity.
  - change (base_name ++ "_summary.csv")%string
      with (base_name ++ ("_summary" ++ ".csv"))%string.
    assert (Hassoc : forall a b c : string,
              (a ++ (b ++ c) = (a ++ b) ++ c)%string).
    { intros a b c. induction a as [|x a IH]; simpl; [reflexivity|].
      now rewrite IH. }
    rewrite Hassoc.
    now rewrite (endswith_app (base_name ++ "_summary") ".csv" ".csv").
Qed.

(** X16.  The data file, the summary file and the metadata file of a run
    are three different files, whatever the output name and the format:
    none of them overwrites another. *)
Theorem output_files_are_distinct (base_name : string) (w : Writer) :
  data_file base_name w <> summary_file base_name /\
  data_file base_name w <> metadata_file base_name /\
  summary_file base_name <> metadata_file base_name.
Proof.
  assert (Hlen : forall a b : string,
            String.length a <> String.length b -> a <> b)
    by (intros a b H ->; now apply H).
  unfold summary_file, metadata_file.
  repeat split; apply Hlen; destruct w; unfold data_file;
    rewrite !string_length_app; simpl; lia.
Qed.

(** ** The cache of [cached_analyze_csv] *)




(** ** [find_merge_keys] *)

Lemma try_rename_keeps (m a : Utils.Structure) (main_col aux_col : string)
    (acc r : list (string * string)) :
  Utils.try_rename m a main_col aux_col acc = inr r -> r = acc.
Proof.
  unfold Utils.try_rename.
  destruct (Utils.getitem (Utils.dtypes m) main_col) as [e|dm];
    [discriminate|].
  destruct (Utils.getitem (Utils.dtypes a) aux_col) as [e|da];
    [discriminate|].
  cbn [bind]. destruct (String.eqb dm da).
  - destruct (Utils.getitem (Utils.sample m) main_col) as [e|sm];
      [discriminate|].
    destruct (Utils.getitem (Utils.sample a) aux_col) as [e|sa];
      [discriminate|].
    cbn [bind Utils.values_eq ret]. intros H. now inversion H.
  - intros H. now inversion H.
Qed.

Lemma for_aux_cols_keeps (m a : Utils.Structure) (main_col : string)
    (aux_cols : list string) (acc r : list (string * string)) :
  Utils.for_aux_cols m a main_col aux_cols acc = inr r -> r = acc.
Proof.
  revert acc. induction aux_cols as [|c cols IH]; intros acc; simpl.
  - intros H. now inversion H.
  - destruct (Utils.try_rename m a main_col c acc) as [e|r'] eqn:E;
      [discriminate|].
    cbn [bind]. intros H. apply IH in H. apply try_rename_keeps in E.
    congruence.
Qed.

Lemma for_main_cols_keeps (m a : Utils.Structure)
    (main_cols aux_cols : list string) (acc r : list (string * string)) :
  Utils.for_main_cols m a main_cols aux_cols acc = inr r -> r = acc.
Proof.
  revert acc. induction main_cols as [|c cols IH]; intros acc; simpl.
  - intros H. now inversion H.
  - destruct (Utils.for_aux_cols m a c aux_cols acc) as [e|r'] eqn:E;
      [discriminate|].
    cbn [bind]. intros H. apply IH in H. apply for_aux_cols_keeps in E.
    congruence.
Qed.

Lemma common_cols_In (main_cols aux_cols : list string) (c : string) :
  In c (filter (fun x => if in_dec string_dec x (nodup string_dec aux_cols)
                         then true else false)
               (nodup string_dec main_cols)) <->
  In c main_cols /\ In c aux_cols.
Proof.
  rewrite filter_In, nodup_In.
  destruct (in_dec string_dec c (nodup string_dec aux_cols)) as [Hin|Hno].
  - apply nodup_In in Hin. tauto.
  - rewrite nodup_In in Hno. split; [intros [_ H0]; discriminate|tauto].
Qed.

(** X18.  [find_merge_keys] never proposes a rename.  Whenever it returns,
    its second result is the empty list, because the two [values()] views
    it compares are never equal; its first result holds the columns that
    are in both structures, each once. *)
Theorem find_merge_keys_proposes_nothing (m a : Utils.Structure)
    (common_cols : list string) (potential_renames : list (string * string)) :
  Utils.find_merge_keys m a = inr (common_cols, potential_renames) ->
  potential_renames = [] /\ NoDup common_cols /\
  forall c, In c common_cols <->
            In c (Utils.columns m) /\ In c (Utils.columns a).
Proof.
  unfold Utils.find_merge_keys.
  destruct (Utils.for_main_cols m a _ _ []) as [e|r] eqn:E; [discriminate|].
  cbn [bind ret]. intros H. inversion H; subst.
  apply for_main_cols_keeps in E. split; [exact E|]. split.
  - apply NoDup_filter, NoDup_nodup.
  - intros c. apply common_cols_In.
Qed.

Lemma find_merge_keys_proposes_nothing_witness :
  NoDup ["country_code"] /\ @nil (string * string) = [].
Proof.
  destruct (find_merge_keys_proposes_nothing
              (Utils.mkStructure ["i"; "country_code"]
                 [("i", "int64"); ("country_code", "int64")]
                 [("i", [(0, Some "1")]); ("country_code", [(0, Some "1")])])
              (Utils.mkStructure ["country_code"; "country_name"]
                 [("country_code", "int64"); ("country_name", "object")]
                 [("country_code", [(0, Some "1")]);
                  ("country_name", [(0, Some "A")])])
              ["country_code"] [] eq_refl) as [H1 [H2 _]].
  split; [exact H2|exact H1].
Defined.

Lemma getitem_combine (cols : list string) (ds : list string) (c : string) :
  In c cols -> length cols <= length ds ->
  exists d, Utils.getitem (combine cols ds) c = inr d.
Proof.
  revert ds. induction cols as [|x cols IH]; intros ds Hin Hlen;
    [contradiction|].
  destruct ds as [|d ds]; [simpl in Hlen; lia|].
  unfold Utils.getitem. cbn [combine find fst].
  destruct (String.eqb_spec x c) as [->|Hne]; [eexists; reflexivity|].
  destruct Hin as [->|Hin]; [contradiction|].
  simpl in Hlen. apply (IH ds Hin). lia.
Qed.

Lemma getitem_by_column {V : Type} (F : nat -> string -> V)
    (cols : list string) (start : nat) (c : string) :
  In c cols ->
  exists d,
    Utils.getitem
      (map (fun '(n, x) => (x, F n x))
           (combine (seq start (length cols)) cols)) c = inr d.
Proof.
  revert start. induction cols as [|x cols IH]; intros start Hin;
    [contradiction|].
  unfold Utils.getitem. cbn [length seq combine map find fst].
  destruct (String.eqb_spec x c) as [->|Hne]; [eexists; reflexivity|].
  destruct Hin as [->|Hin]; [contradiction|].
  exact (IH (S start) Hin).
Qed.

Lemma getitem_head_to_dict (df : Utils.Frame) (c : string) :
  In c (Utils.frame_columns df) ->
  exists d, Utils.getitem (Utils.head_to_dict df) c = inr d.
Proof.
  unfold Utils.head_to_dict. cbv zeta.
  apply (getitem_by_column
           (fun n _ =>
              map (fun '(label, row) => (label, nth n row None))
                  (combine (seq 0 (length (firstn 5 (Utils.frame_rows df))))
                           (firstn 5 (Utils.frame_rows df))))).
Qed.

Lemma for_aux_cols_returns (m a : Utils.Structure) (main_col : string)
    (aux_cols : list string) (acc : list (string * string)) :
  (exists d, Utils.getitem (Utils.dtypes m) main_col = inr d) ->
  (exists d, Utils.getitem (Utils.sample m) main_col = inr d) ->
  (forall c, In c aux_cols ->
     (exists d, Utils.getitem (Utils.dtypes a) c = inr d) /\
     (exists d, Utils.getitem (Utils.sample a) c = inr d)) ->
  Utils.for_aux_cols m a main_col aux_cols acc = inr acc.
Proof.
  intros [dm Hdm] [sm Hsm]. induction aux_cols as [|c cols IH]; intros Ha;
    [reflexivity|].
  destruct (Ha c (or_introl eq_refl)) as [[da Hda] [sa Hsa]].
  simpl. unfold Utils.try_rename. rewrite Hdm, Hda. cbn [bind].
  destruct (String.eqb dm da).
  - rewrite Hsm, Hsa. cbn [bind Utils.values_eq ret].
    apply IH. intros c' Hc'. apply Ha. now right.
  - cbn [bind ret]. apply IH. intros c' Hc'. apply Ha. now right.
Qed.

(** X19.  On the structures [analyze_csv] makes of two frames that have a
    dtype for every column, [find_merge_keys] does not raise: it returns
    the columns the frames share and no rename. *)
Theorem find_merge_keys_on_analyses (main aux : Utils.Frame) :
  length (Utils.frame_columns main) <= length (Utils.frame_dtypes main) ->
  length (Utils.frame_columns aux) <= length (Utils.frame_dtypes aux) ->
  exists common_cols,
    Utils.find_merge_keys (Utils.analyze_frame main)
                          (Utils.analyze_frame aux) =
      inr (common_cols, []) /\
    forall c, In c common_cols <->
              In c (Utils.frame_columns main) /\
              In c (Utils.frame_columns aux).
Proof.
  intros Hm Ha.
  assert (Hloop : forall main_cols aux_cols,
            (forall c, In c main_cols -> In c (Utils.frame_columns main)) ->
            (forall c, In c aux_cols -> In c (Utils.frame_columns aux)) ->
            Utils.for_main_cols (Utils.analyze_frame main)
              (Utils.analyze_frame aux) main_cols aux_cols [] = inr []).
  { intros main_cols aux_cols Hmc Hac.
    induction main_cols as [|c cols IH]; [reflexivity|].
    simpl. rewrite for_aux_cols_returns.
    - cbn [bind]. apply IH. intros c' Hc'. apply Hmc. now right.
    - apply getitem_combine; [apply Hmc; now left|exact Hm].
    - apply getitem_head_to_dict. apply Hmc. now left.
    - intros c' Hc'. split.
      + apply getitem_combine; [now apply Hac|exact Ha].
      + apply getitem_head_to_dict. now apply Hac. }
  unfold Utils.find_merge_keys.
  rewrite Hloop; [|intros c Hc; now apply nodup_In in Hc
                  |intros c Hc; now apply nodup_In in Hc].
  cbn [bind ret]. eexists. split; [reflexivity|].
  intros c. apply common_cols_In.
Qed.

Lemma find_merge_keys_on_analyses_witness :
  exists common_cols,
    Utils.find_merge_keys
      (Utils.analyze_frame
         (Utils.mkFrame ["i"; "j"; "k"; "value"]
            ["int64"; "int64"; "int64"; "int64"]
            [[Some "1"; Some "4"; Some "7"; Some "10"]]))
      (Utils.analyze_frame
         (Utils.mkFrame ["country_code"; "country_name"]
            ["int64"; "object"] [[Some "1"; Some "A"]])) =
    inr (common_cols, []) /\
    forall c, In c common_cols <->
              In c ["i"; "j"; "k"; "value"] /\
              In c ["country_code"; "country_name"].
Proof.
  apply (find_merge_keys_on_analyses
           (Utils.mkFrame ["i"; "j"; "k"; "value"]
              ["int64"; "int64"; "int64"; "int64"]
              [[Some "1"; Some "4"; Some "7"; Some "10"]])
           (Utils.mkFrame ["country_code"; "country_name"]
              ["int64"; "object"] [[Some "1"; Some "A"]]));
    simpl; lia.
Defined.

(** ** The order of the rows after sampling *)

Lemma take_drawn_keys (frac : Q) (df : DataFrame) (key : Pandas.Key)
    (res : list nat) (r : EnrichedRow) :
  drawn_from frac (Pandas.group_labels key_of df key) res ->
  In r (Pandas.take df res) -> key_of r = key.
Proof.
  intros [_ [Hincl _]] Hr. apply take_In in Hr. destruct Hr as [p [Hp Hr]].
  apply Hincl, group_labels_In in Hp. destruct Hp as [r' [Hr' Hk]].
  congruence.
Qed.

Lemma sorted_app {A : Type} (R : A -> A -> Prop) (l1 l2 : list A) :
  StronglySorted R l1 -> StronglySorted R l2 ->
  (forall a b, In a l1 -> In b l2 -> R a b) ->
  StronglySorted R (l1 ++ l2).
Proof.
  induction 1 as [|a l1 Hs IH Hall]; intros H2 Hcross; [exact H2|].
  simpl. constructor.
  - apply IH; [exact H2|]. intros x y Hx Hy. apply Hcross; [now right|exact Hy].
  - apply Forall_app. split; [exact Hall|].
    apply Forall_forall. intros y Hy. apply Hcross; [now left|exact Hy].
Qed.

Lemma same_key_sorted (key : Pandas.Key) (l : list Pandas.Key) :
  (forall x, In x l -> x = key) -> StronglySorted key_le l.
Proof.
  induction l as [|x l IH]; intros H; constructor.
  - apply IH. intros y Hy. apply H. now right.
  - apply Forall_forall. intros y Hy.
    rewrite (H x (or_introl eq_refl)), (H y (or_intror Hy)).
    unfold key_le. now rewrite (proj2 (key_compare_eq key key) eq_refl).
Qed.

Lemma concat_drawn_sorted (frac : Q) (df : DataFrame)
    (keys : list Pandas.Key) (values : list (list nat)) :
  StronglySorted key_lt keys ->
  Forall2 (drawn_from frac)
          (map (Pandas.group_labels key_of df) keys) values ->
  StronglySorted key_le
    (map key_of (Pandas.take df (List.concat values))) /\
  forall x, In x (map key_of (Pandas.take df (List.concat values))) ->
            In x keys.
Proof.
  intros Hs. revert values.
  induction Hs as [|key keys Hs IH Hall]; intros values HF;
    inversion HF as [|x res xs values' Hd HF' Hx]; subst.
  - split; [constructor|intros x []].
  - destruct (IH values' HF') as [IH1 IH2].
    cbn [List.concat]. rewrite take_app, map_app.
    assert (Hhead : forall x, In x (map key_of (Pandas.take df res)) ->
                              x = key).
    { intros x Hx. apply in_map_iff in Hx. destruct Hx as [r [<- Hr]].
      now apply (take_drawn_keys frac df key res). }
    split.
    + apply sorted_app; [now apply (same_key_sorted key)|exact IH1|].
      intros a b Ha Hb. rewrite (Hhead a Ha).
      apply IH2 in Hb. apply (proj1 (Forall_forall _ _) Hall) in Hb.
      unfold key_lt in Hb. unfold key_le. now rewrite Hb.
    + intros x Hx. apply in_app_or in Hx. destruct Hx as [Hx|Hx].
      * left. symmetry. now apply Hhead.
      * right. now apply IH2.
Qed.

(** X20.  Sampling changes the order of the rows: unless every group comes
    back whole and in place, in which case the batch is returned as it
    was, the sampled rows come in ascending order of their (t, i, j) key,
    whatever order the batch had. *)
Theorem sampled_rows_are_ordered_by_key (self : DataProcessor)
    (st : RandomState) (df : DataFrame) :
  use_sample self = true ->
  (0 < sample_frac self)%Q -> (sample_frac self <= 1)%Q ->
  exists out st',
    stratified_sample self st df = inr (out, st') /\
    (out = df \/ StronglySorted key_le (map key_of out)).
Proof.
  intros Hon Hpos H1. assert (H0 : (0 <= sample_frac self)%Q)
    by (now apply Qlt_le_weak).
  unfold stratified_sample. rewrite Hon.
  unfold stratified_labels, Pandas.groupby_apply, Pandas.groupby.
  destruct (apply_groupwise_returns (sample_group self)
              (drawn_from (sample_frac self))
              (map (Pandas.group_labels key_of df)
                   (Pandas.sorted_keys key_of df))) with (st := st)
    as [values [st' [Hv HF]]].
  { intros st0 x Hx. apply in_map_iff in Hx. destruct Hx as [key [<- _]].
    apply sample_group_returns; auto. apply group_labels_NoDup. }
  rewrite Hv. cbn [bind ret].
  destruct (Pandas.indexed_same _ values).
  - exists (Pandas.take df (seq 0 (length df))), st'.
    split; [reflexivity|]. left. apply take_all.
  - exists (Pandas.take df (List.concat values)), st'.
    split; [reflexivity|]. right.
    apply (concat_drawn_sorted (sample_frac self) df
             (Pandas.sorted_keys key_of df) values);
      [apply sorted_keys_sorted|exact HF].
Qed.

Lemma sampled_rows_are_ordered_by_key_witness :
  exists out st',
    stratified_sample (Sample.processor true (1#2) "csv") Sample.zeros
      (rev Sample.batch) = inr (out, st') /\
    (out = rev Sample.batch \/ StronglySorted key_le (map key_of out)).
Proof.
  apply (sampled_rows_are_ordered_by_key
           (Sample.processor true (1#2) "csv") Sample.zeros
           (rev Sample.batch) eq_refl eq_refl).
  discriminate.
Defined.

(** ** Progress at the end of a run *)

Lemma enumerate_from_snoc {A : Type} (l : list A) (x : A) (start : nat) :
  combine (seq start (length (l ++ [x]))) (l ++ [x]) =
  combine (seq start (length l)) l ++ [(start + length l, x)].
Proof.
  revert start. induction l as [|a l IH]; intros start; simpl.
  - now rewrite Nat.add_0_r.
  - rewrite IH, Nat.add_succ_r. reflexivity.
Qed.

Lemma progress_of_last (total : nat) :
  0 < total -> progress_of (total - 1) total = 100.
Proof.
  intros H. unfold progress_of.
  replace (total - 1 + 1) with total by lia.
  rewrite Nat.mul_comm. apply Nat.div_mul. lia.
Qed.

(** X21.  When a progress callback is passed and the task of the main file
    submitted last returns, the last percentage reported is 100, however
    many of the other files failed. *)
Theorem progress_ends_at_100 (self : DataProcessor) (lcb : bool)
    (csv_files : list CsvFile) (worker_rng : nat -> RandomState)
    (schedule : list nat) (df : DataFrame) :
  let futures := futures_of self csv_files worker_rng in
  nth_error futures (length futures - 1) = Some (inr df) ->
  last_progress
    (trace (process_data self true lcb csv_files worker_rng schedule)) =
  Some 100.
Proof.
  cbv zeta. intros Hlast.
  rewrite last_progress_file_callbacks.
  pose proof (process_data_file_callbacks self true lcb csv_files worker_rng
                schedule) as Hcb. cbv zeta in Hcb. rewrite Hcb. clear Hcb.
  set (futures := futures_of self csv_files worker_rng) in *.
  assert (Hsplit : exists front, futures = front ++ [inr df]).
  { clearbody futures. clear - Hlast.
    induction futures as [|fut futures IH] using rev_ind; [discriminate|].
    exists futures. rewrite length_app in Hlast. simpl in Hlast.
    replace (length futures + 1 - 1) with (length futures) in Hlast by lia.
    rewrite nth_error_app2, Nat.sub_diag in Hlast by lia.
    simpl in Hlast. now inversion Hlast. }
  destruct Hsplit as [front Hfront]. clearbody futures. subst futures.
  unfold enumerate. rewrite enumerate_from_snoc, flat_map_app.
  rewrite last_progress_app. cbn [flat_map].
  unfold callbacks_for at 1. cbn [fst snd].
  rewrite length_app. cbn [length]. rewrite <- (progress_of_last
    (length front + 1)) by lia.
  replace (length front + 1 - 1) with (0 + length front) by lia.
  destruct lcb; reflexivity.
Qed.

Lemma progress_ends_at_100_witness :
  last_progress
    (trace (process_data (Sample.processor false 1 "csv") true true
              Sample.bad_then_good Sample.same_rng [])) = Some 100.
Proof.
  apply (progress_ends_at_100 (Sample.processor false 1 "csv") true
           Sample.bad_then_good Sample.same_rng []
           (process_chunk Sample.aux (fillna_qv Sample.trade_rows))).
  reflexivity.
Defined.
